(* ===== verification/_CoqProject ===== *)
-Q . S2P
Prelude.v
JsString.v
Types.v
Storage.v
State.v
Render.v
Login.v
Analysis.v
Header.v
App.v
Theme.v
Spec.v
