(* ===== verification/Prelude.v ===== *)
(** * Verification of the Waed legal-analysis client (src/App.tsx)

    ** The program

    The repository is one React component, [App] in src/App.tsx, with a
    small [Header] component beside it.  [App] keeps nine [useState] hooks
    (theme, authentication flag, typed username and password, login error,
    loading flag, selected law system, case details, analysis result) and
    talks to three things outside React: the browser's [sessionStorage]
    (one flag, ['waed_auth'] = ['true']), the analysis service
    [analyzeLegalCase] (src/services/geminiService.ts, not in the snapshot)
    and [window.print].  Its parts:
    - the login gate, [handleLogin] (lines 60-77): trim and upper-case the
      username, trim, upper-case and strip all white space from the
      password, compare with two literal pairs, then set the flag or show
      a fixed error;
    - the case-analysis orchestrator, [handleSubmit] (lines 79-92): guard
      on the two fields, clear the result, raise the loading flag, await
      the service, store its result or a fixed fallback, lower the flag;
    - session persistence: the mount effect (lines 55-58) and the logout
      callback (line 141);
    - the header (lines 6-41): theme toggle and logout button;
    - rendering (lines 94-218): login screen or main screen, submit button
      state, result panel.

    ** The development (library root S2P, files in dependency order)

    - [Prelude]: the scope, the [waed] hint databases, tactics
      ([inv_clear], [decide_by_compute]) and the generic list lemmas
      ([drop_while] and its laws).
    - [JsString]: JavaScript strings as lists of code points ([jstr]), the
      literal decoder [lit], and the built-ins the code calls: [js_trim]
      ([trim]), [js_toUpperCase] ([toUpperCase]), [js_strip_ws]
      ([replace(/\s/g, '')]), [js_truthy] ([!s]).  Upper-casing is stated
      against the interface [CaseMapping], the Unicode default full case
      mapping with the laws the proofs use: ASCII letters map to upper
      case; white space is fixed; no image is empty or adds white space;
      no image is longer than three code points; the only non-ASCII code
      points whose image is all ASCII are U+0131 (to [I]) and those whose
      image contains [F] or [S].  [unicode_case] is an instance for the
      Latin blocks and the Latin ligatures.  These built-ins are library
      code the component calls: they are support, not mapped to src/.
    - [Types]: [AppTheme], [Source], [AnalysisResult] (modelled from the
      spec, their files are not in the snapshot), the class
      [LawSystemEnum] whose field is the unknown list of [LawSystem]
      values (every theorem holds for any instance; the concrete runs use
      the local stand-in [sample_law_systems]), the [Outcome] of a call
      and the [Request] it was made with.
    - [Storage]: [sessionStorage] as a [gmap] with [getItem], [setItem],
      [clear], and [session_flag].
    - [State]: the hooks as the record [AppState] with one setter per hook
      ([setTheme] ... [setResult]), and [World] = state + storage + calls in
      flight + whether the mount effect ran.
    - [Render]: [themeStyle], the [Header] markup [header_view], the
      class names of every element: those always rendered on the login
      screen ([login_classes], lines 100-130) and the main screen
      ([main_classes], lines 139-215), and those of the elements rendered
      only sometimes, present in the view exactly when the element is (the
      error line [login_error_line_class], line 125; the result panel
      [panel_classes], lines 189-207; its sources block
      [sources_classes], lines 200-204); the select's options [law_select_options] (lines
      164-165), [toggle_label], [submit_label], [submit_disabled_of],
      [result_panel] and [render : AppState -> View].
    - [Login]: [normalize_username], [normalize_password],
      [credentials_ok], [handleLogin].
    - [Analysis]: [submit_blocked], [handleSubmit] (the part before the
      [await]) and [handleSubmit_settle] (the continuation).
    - [Header]: [toggle_theme] and [logout].
    - [App]: the [Event]s, [mount_effect], [dispatch] (the handler of each
      event), [enabled] (whether the rendered view offers it), the
      reachable worlds as an inductive [reachable] and an executable
      [run], the invariants [loading_inv], [session_inv], [requests_inv]
      and [law_inv], and
      [page_reload] (a browser reload: fresh hooks, same storage).
    - [Theme]: [world_equiv], equality up to the theme, an [Equivalence]
      with [Proper] instances for [dispatch], [enabled] and [run].
    - [Spec]: the spec's view-state machine (section 9): [AbsState],
      [abs_step], its invariant [abs_inv], and the abstraction [abstr]
      of a world.

    ** What is proved

    - Login (C1-C4, C19, C23, C26): on ASCII-and-white-space input, the
      accepted credentials are exactly the case variants of the two
      pairs, with white space around the username and anywhere in the
      password; a rejection shows the error and changes nothing else;
      white space inside the username always fails; the login reads the
      typed strings only through the case mapping and the white-space
      test, so code points with the same upper-case image are
      interchangeable (with Unicode's table, [admın1] with a dotless i
      logs in); the username normalisation ignores exactly the white
      space around the name; for every lawful case table, accepted
      credentials contain only ASCII, U+0131 and (in the password) white
      space; blank credentials are always rejected.
    - Analysis (C5-C8): the guard is a no-op, a submission makes exactly
      one call with the untrimmed details, a settlement replaces the
      result or stores the fallback, and lowers the loading flag.
    - The running component (C9-C18, C24-C25, C27, C29-C31), by induction
      on [reachable]: at most one call in flight and the loading flag
      raised exactly then; after mount the gate is shown exactly when the
      flag is absent; logout (the whole storage is cleared, the typed
      credentials and the result stay); calls surviving logout; the
      button's enabling condition; the enabled-but-inert button on
      white-space details; the theme toggle touching presentation only;
      the loading flag clearing on settlement; the handler's missing busy
      check (two raw submissions make two calls and the first settlement
      lowers the flag early); every call carries a law system that is a
      value of the enum and non-blank details; the session round-trips
      through [sessionStorage] across a page reload while the fields, the
      result, the calls and the theme do not; the form stays editable
      during a call and the stored result ignores the edits; the print
      link and the login error's lifetime.
    - Theme independence (C20): worlds differing only in theme run every
      event sequence alike and show the same screens (setoid rewriting
      with the [Proper] instances of [Theme]).
    - Refinement (C21-C22): every reachable world abstracts to a state
      reachable in the spec machine and every offered event is a spec
      transition or a stutter; through the spec machine's invariant, no
      result is shown while a call is in flight.
    - Presentation (C28): the page's class names are determined exactly
      by the theme and by which elements are rendered.

    No fuel or bounds are needed: the source has no loop or recursion,
    every handler is straight-line code and a total function here, and
    [run] recurses on its event list.  At most one call is ever in flight
    (C9) and it can always settle (C17), so the asynchronous work ends.

    ** Not modelled

    The analysis service's internals (prompt, network, parsing): a call's
    settlement carries an arbitrary [Outcome].  The values of the
    [LawSystem] enum (src/types.ts is not in the snapshot): they are the
    parameter [LawSystemEnum].  The fixed Arabic headings, labels and
    placeholders (constant text), the CSS animations, and the print
    dialog itself ([Print] is offered and changes nothing).  The lines of
    src/App.tsx the map leaves out are the imports, blank lines and
    closing braces: nothing else of the program is left to model.
    The full Unicode case table: the theorems hold for every
    [CaseMapping]; only the witnesses use [unicode_case].  Strings
    with unpaired UTF-16 surrogates.

    ** Plan for further work

    In order: extend [unicode_case] with the Greek, Cyrillic and
    Armenian blocks and the remaining SpecialCasing entries; model strings
    as UTF-16 code units so that lone surrogates are covered; give
    [LawSystemEnum] its instance once src/types.ts is available. *)

From stdpp Require Import base list gmap strings.
From Stdlib Require Import NArith String.

Declare Scope waed_scope.
Delimit Scope waed_scope with waed.

Create HintDb waed.
Hint Constants Transparent : waed.
Hint Projections Transparent : waed.
Hint Variables Transparent : waed.
Create Rewrite HintDb waed_rw.

(** [inv_clear H]: invert a hypothesis and clean up. *)
Ltac inv_clear H := inversion H; subst; clear H.

(** [decide_by_compute]: close a decidable goal on closed data by
    evaluating its decision procedure. *)
Ltac decide_by_compute := refine (bool_decide_unpack _ _); vm_compute; exact I.

(** ** Dropping a prefix that satisfies a test *)

Section DropWhile.
Context {A : Type} (p : A -> bool).

Fixpoint drop_while (l : list A) : list A :=
  match l with
  | [] => []
  | x :: l' => if p x then drop_while l' else l
  end.

Lemma drop_while_app_all (l1 l2 : list A) :
  Forall (fun x => p x = true) l1 -> drop_while (l1 ++ l2) = drop_while l2.
Proof. induction 1 as [|x l Hx _ IH]; simpl; [done|]. by rewrite Hx. Qed.

Lemma drop_while_head (l : list A) x l' :
  drop_while l = x :: l' -> p x = false.
Proof.
  induction l as [|y l IH]; simpl; [done|].
  destruct (p y) eqn:Hy; [done|]. by intros [= -> _].
Qed.

Lemma drop_while_split (l : list A) :
  exists l1, l = l1 ++ drop_while l /\ Forall (fun x => p x = true) l1.
Proof.
  induction l as [|y l [l1 [Hl Hf]]]; simpl; [by exists []|].
  destruct (p y) eqn:Hy.
  - exists (y :: l1). simpl. rewrite <- Hl. auto.
  - by exists [].
Qed.

Lemma drop_while_stop (l : list A) x :
  p x = false -> drop_while (x :: l) = x :: l.
Proof. simpl. by intros ->. Qed.

Lemma drop_while_all (l : list A) :
  Forall (fun x => p x = true) l -> drop_while l = [].
Proof. intros H. rewrite <- (app_nil_r l). by rewrite drop_while_app_all. Qed.

Lemma drop_while_Forall (P : A -> Prop) (l : list A) :
  Forall P l -> Forall P (drop_while l).
Proof.
  destruct (drop_while_split l) as [l1 [Hl _]]. intros H.
  rewrite Hl in H. by apply Forall_app in H as [_ H'].
Qed.

Lemma drop_while_none (l : list A) :
  Forall (fun x => p x = false) l -> drop_while l = l.
Proof. destruct 1 as [|x l Hx _]; simpl; [done|]. by rewrite Hx. Qed.

Lemma drop_while_idem (l : list A) : drop_while (drop_while l) = drop_while l.
Proof.
  induction l as [|y l IH]; simpl; [done|].
  destruct (p y) eqn:Hy; [done|]. simpl. by rewrite Hy.
Qed.

Lemma drop_while_Forall2 (R : A -> A -> Prop) (l l' : list A) :
  (forall x y, R x y -> p x = p y) ->
  Forall2 R l l' -> Forall2 R (drop_while l) (drop_while l').
Proof.
  intros Hp. induction 1 as [|x y l l' Hxy Hl IH]; simpl; [constructor|].
  rewrite (Hp x y Hxy). destruct (p y); [done|by constructor].
Qed.
End DropWhile.

#[export] Hint Resolve drop_while_stop drop_while_idem : waed.

(** ** Forall over appended and reversed lists *)

Lemma Forall2_rev {A B} (R : A -> B -> Prop) (l : list A) (l' : list B) :
  Forall2 R l l' -> Forall2 R (rev l) (rev l').
Proof.
  induction 1; simpl; [constructor|]. apply Forall2_app; [done|by constructor].
Qed.

Lemma Forall_rev_iff {A} (P : A -> Prop) (l : list A) :
  Forall P (rev l) <-> Forall P l.
Proof.
  split; [|apply Forall_rev]. intros H.
  rewrite <- (rev_involutive l). by apply Forall_rev.
Qed.
