(* ===== verification/JsString.v ===== *)
(** * JavaScript string built-ins used by src/App.tsx

    A JavaScript string is modelled as its sequence of Unicode code points
    ([list N]).  This file holds the literal decoder used to write the
    source's string literals, and the built-ins the component calls:
    [String.prototype.trim], [String.prototype.toUpperCase],
    [replace(/\s/g, '')] and string truthiness ([!s]).  Upper-casing is
    stated against the [CaseMapping] interface (the Unicode default full
    case mapping, of which the theorems only use the ASCII and white-space
    laws); [unicode_case] is a concrete table for the Latin blocks. *)

From stdpp Require Import base list gmap strings.
From Stdlib Require Import NArith String.
From S2P Require Import Prelude.

Local Open Scope N_scope.

Abbreviation jstr := (list N).

(** ** String literals: UTF-8 source text to code points *)

Fixpoint utf8_decode (bs : list N) : jstr :=
  match bs with
  | [] => []
  | b0 :: r0 =>
      if b0 <? 128 then b0 :: utf8_decode r0
      else if b0 <? 224 then
        match r0 with
        | b1 :: r1 => ((b0 - 192) * 64 + (b1 - 128)) :: utf8_decode r1
        | [] => []
        end
      else if b0 <? 240 then
        match r0 with
        | b1 :: b2 :: r2 =>
            ((b0 - 224) * 4096 + (b1 - 128) * 64 + (b2 - 128)) :: utf8_decode r2
        | _ => []
        end
      else
        match r0 with
        | b1 :: b2 :: b3 :: r3 =>
            ((b0 - 240) * 262144 + (b1 - 128) * 4096 + (b2 - 128) * 64
             + (b3 - 128)) :: utf8_decode r3
        | _ => []
        end
  end.

Definition lit (s : String.string) : jstr :=
  utf8_decode (map Ascii.N_of_ascii (String.list_ascii_of_string s)).

(** Literals are evaluated by [vm_compute] only, never by [simpl]. *)
Arguments lit : simpl never.

(** ** White space: ECMAScript WhiteSpace and LineTerminator

    TAB, LF, VT, FF, CR, SPACE, NBSP, the Zs category (U+1680,
    U+2000..U+200A, U+202F, U+205F, U+3000), LS, PS and the BOM.  This is
    the set [trim] removes and the set the regular expression [\s]
    matches. *)

Definition js_space_points : list N :=
  [9; 10; 11; 12; 13; 32; 160; 5760; 8192; 8193; 8194; 8195; 8196; 8197;
   8198; 8199; 8200; 8201; 8202; 8232; 8233; 8239; 8287; 12288; 65279].

Definition is_js_space (c : N) : bool := existsb (N.eqb c) js_space_points.

(** [String.prototype.trim]: TrimString(s, start+end). *)
Definition js_trimStart (s : jstr) : jstr := drop_while is_js_space s.
Definition js_trimEnd (s : jstr) : jstr := rev (drop_while is_js_space (rev s)).
Definition js_trim (s : jstr) : jstr := js_trimEnd (js_trimStart s).

(** [s.replace(/\s/g, '')]: every white-space code point removed. *)
Definition js_strip_ws (s : jstr) : jstr := filter (fun c => is_js_space c = false) s.

(** [!s] on a string is true exactly for the empty string. *)
Definition js_truthy (s : jstr) : bool :=
  match s with [] => false | _ => true end.

(** ** Upper-casing *)

Definition ascii_upcase (c : N) : N :=
  if (97 <=? c) && (c <=? 122) then c - 32 else c.

(** The default full upper-case mapping of a code point (UnicodeData plus
    the unconditional SpecialCasing entries), as the engine uses it for
    [toUpperCase].  The laws are the facts of the Unicode tables that the
    theorems rely on. *)
Class CaseMapping := {
  upper_cp : N -> jstr;
  upper_cp_ascii : forall c, c < 128 -> upper_cp c = [ascii_upcase c];
  upper_cp_space : forall c, is_js_space c = true -> upper_cp c = [c];
  upper_cp_nonempty : forall c, upper_cp c <> [];
  upper_cp_nonspace : forall c,
    is_js_space c = false -> Forall (fun d => is_js_space d = false) (upper_cp c);
  (** The only code points beyond ASCII whose upper-case form is all ASCII
      are U+0131 (to [I]), U+017F (to [S]), U+00DF (to [SS]) and the
      ligatures U+FB00..U+FB06 (to [FF], [FI], [FL], [FFI], [FFL], [ST]):
      every such form is [I] or contains [F] or [S]. *)
  upper_cp_to_ascii : forall c, 128 <= c -> Forall (fun d => d < 128) (upper_cp c) ->
    (c = 305 /\ upper_cp c = [73]) \/ 70 ∈ upper_cp c \/ 83 ∈ upper_cp c;
  (** A full case mapping yields at most three code points. *)
  upper_cp_length : forall c, (List.length (upper_cp c) <= 3)%nat
}.

(** [String.prototype.toUpperCase]: map every code point, concatenate. *)
Definition js_toUpperCase `{CaseMapping} (s : jstr) : jstr := flat_map upper_cp s.

(** A concrete mapping: ASCII, Latin-1 Supplement, Latin Extended-A and the
    Latin ligatures U+FB00..U+FB06; other code points are left unchanged
    (the Arabic script the application is written for has no case). *)
Definition latin_upper_cp (c : N) : jstr :=
  if c <? 128 then [ascii_upcase c]
  else if c =? 181 then [924]
  else if c =? 223 then [83; 83]
  else if (224 <=? c) && (c <=? 254) && negb (c =? 247) then [c - 32]
  else if c =? 255 then [376]
  else if (256 <=? c) && (c <=? 311) && negb (c =? 304) && negb (c =? 305)
          && N.odd c then [c - 1]
  else if c =? 305 then [73]
  else if (313 <=? c) && (c <=? 328) && N.even c then [c - 1]
  else if c =? 329 then [700; 78]
  else if (330 <=? c) && (c <=? 375) && N.odd c then [c - 1]
  else if (377 <=? c) && (c <=? 382) && N.even c then [c - 1]
  else if c =? 383 then [83]
  else if c =? 64256 then [70; 70]
  else if c =? 64257 then [70; 73]
  else if c =? 64258 then [70; 76]
  else if c =? 64259 then [70; 70; 73]
  else if c =? 64260 then [70; 70; 76]
  else if (c =? 64261) || (c =? 64262) then [83; 84]
  else [c].

Lemma is_js_space_spec c : is_js_space c = true <-> c ∈ js_space_points.
Proof.
  unfold is_js_space. rewrite existsb_exists, list_elem_of_In.
  split; [intros (x & Hx & Heq); apply N.eqb_eq in Heq; by subst|].
  intros Hin. exists c. split; [done|]. apply N.eqb_refl.
Qed.

Lemma is_js_space_mid c : 33 <= c <= 159 \/ 161 <= c <= 5759 -> is_js_space c = false.
Proof.
  intros Hc. unfold is_js_space. simpl.
  repeat rewrite (proj2 (N.eqb_neq _ _)) by lia. reflexivity.
Qed.

Lemma ascii_upcase_space c : is_js_space (ascii_upcase c) = is_js_space c.
Proof.
  unfold ascii_upcase. destruct (97 <=? c) eqn:E1, (c <=? 122) eqn:E2; simpl; [|done..].
  apply N.leb_le in E1, E2. rewrite !is_js_space_mid by lia. done.
Qed.

(** [N_bool_facts]: turn the boolean tests of the hypotheses into
    arithmetic facts for [lia]. *)
Ltac N_bool_facts :=
  repeat match goal with
  | H : (_ <? _) = true |- _ => apply N.ltb_lt in H
  | H : (_ <? _) = false |- _ => apply N.ltb_ge in H
  | H : (_ <=? _) = true |- _ => apply N.leb_le in H
  | H : (_ =? _) = true |- _ => apply N.eqb_eq in H
  | H : (_ && _) = true |- _ => apply andb_true_iff in H as [? ?]
  | H : (_ || _) = true |- _ => apply orb_true_iff in H as [? | ?]
  end.

#[export] Program Instance unicode_case : CaseMapping := {| upper_cp := latin_upper_cp |}.
Next Obligation. intros c Hc. unfold latin_upper_cp. by rewrite (proj2 (N.ltb_lt c 128) Hc). Qed.
Next Obligation.
  intros c Hc. apply is_js_space_spec in Hc.
  repeat (apply elem_of_cons in Hc as [-> | Hc]; [reflexivity|]).
  by apply elem_of_nil in Hc.
Qed.
Next Obligation. intros c. unfold latin_upper_cp. by repeat case_match. Qed.
Next Obligation.
  intros c Hc. unfold latin_upper_cp.
  repeat case_match; N_bool_facts; repeat constructor;
    try (rewrite ascii_upcase_space; exact Hc); try exact Hc;
    apply is_js_space_mid; lia.
Qed.
Next Obligation.
  intros c Hc Ha. unfold latin_upper_cp in *.
  repeat case_match; N_bool_facts; subst;
    try (inversion Ha as [|? ? Hx]; simpl in Hx; lia);
    try (left; split; reflexivity); right; set_solver.
Qed.
Next Obligation. intros c. unfold latin_upper_cp. repeat case_match; simpl; lia. Qed.

(** ** Lemmas on the built-ins *)

(** A string with no white space at either end. *)
Definition trimmed (m : jstr) : Prop :=
  drop_while is_js_space m = m /\ drop_while is_js_space (rev m) = rev m.

Definition all_space (s : jstr) : Prop := Forall (fun c => is_js_space c = true) s.

Definition all_ascii (s : jstr) : Prop := Forall (fun c => c < 128) s.

(** [trim] gives back a trimmed string wrapped in white space. *)
Lemma js_trim_frame (l m r : jstr) :
  all_space l -> all_space r -> trimmed m -> js_trim (l ++ m ++ r) = m.
Proof.
  intros Hl Hr [Hm1 Hm2]. unfold js_trim, js_trimStart, js_trimEnd, all_space in *.
  rewrite drop_while_app_all by done.
  destruct m as [|x m'].
  - simpl. rewrite (drop_while_all _ r) by done. reflexivity.
  - assert (Hx : is_js_space x = false) by (eapply drop_while_head; exact Hm1).
    change ((x :: m') ++ r) with (x :: (m' ++ r)).
    rewrite (drop_while_stop _ (m' ++ r) x Hx).
    change (x :: m' ++ r) with ((x :: m') ++ r).
    rewrite rev_app_distr, drop_while_app_all by (by apply Forall_rev_iff).
    rewrite Hm2. apply rev_involutive.
Qed.

Lemma js_trim_all_space (s : jstr) : all_space s -> js_trim s = [].
Proof.
  intros Hs.
  pose proof (js_trim_frame s [] [] Hs (Forall_nil_2 _) (conj eq_refl eq_refl)) as Ht.
  by rewrite app_nil_l, app_nil_r in Ht.
Qed.

Lemma js_trim_Forall (P : N -> Prop) (s : jstr) : Forall P s -> Forall P (js_trim s).
Proof.
  intros H. unfold js_trim, js_trimStart, js_trimEnd.
  apply Forall_rev, drop_while_Forall, Forall_rev, drop_while_Forall, H.
Qed.

Section Upper.
Context `{CaseMapping}.

Lemma js_toUpperCase_app (s1 s2 : jstr) :
  js_toUpperCase (s1 ++ s2) = js_toUpperCase s1 ++ js_toUpperCase s2.
Proof. apply flat_map_app. Qed.

Lemma js_toUpperCase_ascii (s : jstr) :
  all_ascii s -> js_toUpperCase s = map ascii_upcase s.
Proof.
  induction 1 as [|c s Hc _ IH]; [done|].
  simpl. rewrite upper_cp_ascii by done. simpl. by f_equal.
Qed.

Lemma js_toUpperCase_Forall2 (s s' : jstr) :
  Forall2 (fun c c' => upper_cp c = upper_cp c') s s' -> js_toUpperCase s = js_toUpperCase s'.
Proof. induction 1 as [|c c' s s' Hc _ IH]; [done|]. simpl. by rewrite Hc, IH. Qed.

Lemma js_toUpperCase_space (s : jstr) : all_space s -> js_toUpperCase s = s.
Proof.
  induction 1 as [|c s Hc _ IH]; [done|].
  simpl. rewrite upper_cp_space by done. simpl. by f_equal.
Qed.
End Upper.

Lemma js_strip_ws_app (s1 s2 : jstr) :
  js_strip_ws (s1 ++ s2) = js_strip_ws s1 ++ js_strip_ws s2.
Proof. apply filter_app. Qed.

Lemma js_strip_ws_space (s : jstr) : all_space s -> js_strip_ws s = [].
Proof.
  induction 1 as [|c s Hc _ IH]; [done|].
  unfold js_strip_ws in *. rewrite filter_cons_False; [done|]. congruence.
Qed.

Lemma js_strip_ws_no_space (s : jstr) :
  Forall (fun c => is_js_space c = false) (js_strip_ws s).
Proof. unfold js_strip_ws. apply Forall_forall. intros x Hx. by apply list_elem_of_filter in Hx as [? _]. Qed.

#[export] Hint Resolve js_strip_ws_no_space js_trim_Forall : waed.
#[export] Hint Rewrite @js_toUpperCase_app js_strip_ws_app : waed_rw.

(** ** Strings over ASCII and white space *)

Definition ascii_or_space (c : N) : Prop := c < 128 \/ is_js_space c = true.

(** [v] is a case variant of the upper-case ASCII literal [t]. *)
Definition ci_variant (v t : jstr) : Prop := all_ascii v /\ map ascii_upcase v = t.

(** Two code points the case mapping does not tell apart: the same
    upper-case image and the same white-space status. *)
Definition same_case `{CaseMapping} (c c' : N) : Prop :=
  upper_cp c = upper_cp c' /\ is_js_space c = is_js_space c'.

#[export] Instance same_case_dec `{CaseMapping} c c' : Decision (same_case c c').
Proof. unfold same_case. apply _. Defined.

Lemma js_trim_Forall2 (R : N -> N -> Prop) (s s' : jstr) :
  (forall c c', R c c' -> is_js_space c = is_js_space c') ->
  Forall2 R s s' -> Forall2 R (js_trim s) (js_trim s').
Proof.
  intros HR Hs. unfold js_trim, js_trimEnd, js_trimStart.
  by apply Forall2_rev, drop_while_Forall2, Forall2_rev, drop_while_Forall2.
Qed.

#[export] Instance ascii_or_space_dec c : Decision (ascii_or_space c).
Proof. unfold ascii_or_space. apply _. Defined.
#[export] Instance ci_variant_dec v t : Decision (ci_variant v t).
Proof. unfold ci_variant, all_ascii. apply _. Defined.



Lemma ascii_upcase_high c : 128 <= c -> ascii_upcase c = c.
Proof.
  intros Hc. unfold ascii_upcase.
  destruct (97 <=? c), (c <=? 122) eqn:E; simpl; try done. apply N.leb_le in E. lia.
Qed.

Lemma ascii_upcase_space_fix c : is_js_space c = true -> ascii_upcase c = c.
Proof.
  unfold ascii_upcase. destruct (97 <=? c) eqn:E1, (c <=? 122) eqn:E2; simpl; [|done..].
  apply N.leb_le in E1, E2. rewrite is_js_space_mid by lia. done.
Qed.

Lemma ascii_upcase_ascii c : ascii_upcase c < 128 -> c < 128.
Proof. intros H. destruct (N.lt_ge_cases c 128); [done|]. by rewrite ascii_upcase_high in H. Qed.

Lemma map_ascii_upcase_ascii (s t : jstr) :
  map ascii_upcase s = t -> all_ascii t -> all_ascii s.
Proof.
  intros <- Ht. unfold all_ascii in *. rewrite Forall_map in Ht.
  eapply Forall_impl; [exact Ht|]. apply ascii_upcase_ascii.
Qed.

(** The frame [trim] removes is white space. *)
Lemma js_trim_split (s : jstr) :
  exists l r, s = l ++ js_trim s ++ r /\ all_space l /\ all_space r.
Proof.
  unfold js_trim, js_trimStart, js_trimEnd.
  destruct (drop_while_split is_js_space s) as [l [Hl Hfl]].
  destruct (drop_while_split is_js_space (rev (drop_while is_js_space s))) as [r [Hr Hfr]].
  exists l, (rev r). split; [|split; [done|by apply Forall_rev]].
  rewrite Hl at 1. f_equal.
  rewrite <- (rev_involutive (drop_while is_js_space s)) at 1.
  rewrite Hr at 1. by rewrite rev_app_distr.
Qed.

Lemma js_strip_ws_trim (s : jstr) : js_strip_ws (js_trim s) = js_strip_ws s.
Proof.
  destruct (js_trim_split s) as (l & r & Hs & Hl & Hr).
  rewrite Hs at 2. rewrite !js_strip_ws_app, (js_strip_ws_space l), (js_strip_ws_space r) by done.
  by rewrite app_nil_r.
Qed.

Lemma all_space_nonspace_trimmed (v : jstr) :
  Forall (fun c => is_js_space c = false) v -> trimmed v.
Proof.
  intros Hv. split; apply drop_while_none; [done|]. by apply Forall_rev.
Qed.

Section UpperAscii.
Context `{CaseMapping}.

Lemma js_toUpperCase_ascii_or_space (s : jstr) :
  Forall ascii_or_space s -> js_toUpperCase s = map ascii_upcase s.
Proof.
  induction 1 as [|c s [Hc | Hc] _ IH]; [done| |]; simpl; rewrite IH.
  - by rewrite upper_cp_ascii.
  - by rewrite upper_cp_space, ascii_upcase_space_fix.
Qed.

Lemma js_strip_ws_map_upcase (s : jstr) :
  js_strip_ws (map ascii_upcase s) = map ascii_upcase (js_strip_ws s).
Proof.
  induction s as [|c s IH]; [done|]. simpl. unfold js_strip_ws in *.
  rewrite !filter_cons, ascii_upcase_space.
  destruct (decide (is_js_space c = false)); simpl; by rewrite IH.
Qed.
Lemma elem_of_js_toUpperCase (s : jstr) c d :
  c ∈ s -> d ∈ upper_cp c -> d ∈ js_toUpperCase s.
Proof.
  unfold js_toUpperCase. rewrite !list_elem_of_In. intros Hc Hd.
  apply in_flat_map. eauto.
Qed.

(** A code point whose upper-case form lies inside an ASCII string
    without [F] and [S] is ASCII or U+0131. *)
Lemma code_point_into (c : N) (t : jstr) :
  (forall d, d ∈ upper_cp c -> d ∈ t) -> all_ascii t -> 70 ∉ t -> 83 ∉ t ->
  c < 128 \/ c = 305.
Proof.
  intros Hsub Ht H70 H83. destruct (N.lt_ge_cases c 128) as [|Hc]; [by left|right].
  assert (Ha : Forall (fun d => d < 128) (upper_cp c)).
  { apply Forall_forall. intros d Hd. unfold all_ascii in Ht.
    rewrite Forall_forall in Ht. auto. }
  destruct (upper_cp_to_ascii c Hc Ha) as [[-> _] | [H' | H']]; [done| |];
    exfalso; auto.
Qed.

End UpperAscii.

Lemma nonspace_in_trim (s : jstr) c :
  c ∈ s -> is_js_space c = false -> c ∈ js_trim s.
Proof.
  intros Hc Hw. destruct (js_trim_split s) as (l & r & Hs & Hl & Hr).
  rewrite Hs in Hc. apply elem_of_app in Hc as [Hc | Hc].
  - unfold all_space in Hl. rewrite Forall_forall in Hl. specialize (Hl c Hc). congruence.
  - apply elem_of_app in Hc as [Hc | Hc]; [done|].
    unfold all_space in Hr. rewrite Forall_forall in Hr. specialize (Hr c Hc). congruence.
Qed.

(** Every code point of [s] that is not white space survives
    [replace(/\s/g, '')]. *)
Lemma js_strip_ws_ascii_or_space (s : jstr) :
  all_ascii (js_strip_ws s) -> Forall ascii_or_space s.
Proof.
  unfold all_ascii, js_strip_ws. rewrite !Forall_forall. intros H c Hc.
  destruct (is_js_space c) eqn:Ec; [by right|left].
  apply H, list_elem_of_filter. done.
Qed.


(** The result of [trim] has no white space at either end. *)
Lemma js_trim_trimmed (s : jstr) : trimmed (js_trim s).
Proof.
  unfold trimmed, js_trim, js_trimStart, js_trimEnd. rewrite rev_involutive.
  split; [|apply drop_while_idem].
  set (D := drop_while is_js_space s).
  destruct (drop_while_split is_js_space (rev D)) as [L [HL _]].
  destruct (rev (drop_while is_js_space (rev D))) as [|x t] eqn:E; [done|].
  apply drop_while_stop.
  assert (HD : D = x :: t ++ rev L).
  { rewrite <- (rev_involutive D), HL, rev_app_distr, E. reflexivity. }
  apply (drop_while_head is_js_space D x (t ++ rev L)).
  unfold D. rewrite drop_while_idem. exact HD.
Qed.

(** [trim] returns [m] exactly when the input is [m] wrapped in white
    space and [m] has no white space at either end. *)
Lemma js_trim_spec (s m : jstr) :
  js_trim s = m <->
  exists l r, s = l ++ m ++ r /\ all_space l /\ all_space r /\ trimmed m.
Proof.
  split.
  - intros <-. destruct (js_trim_split s) as (l & r & Hs & Hl & Hr).
    exists l, r. split_and!; auto using js_trim_trimmed.
  - intros (l & r & -> & Hl & Hr & Hm). by apply js_trim_frame.
Qed.
