(* ===== verification/Types.v ===== *)
(** * Data types shared by the component

    [AppTheme] comes from src/types.ts and [AnalysisResult] from
    src/services/geminiService.ts; neither file is part of the source
    snapshot, so both are modelled from the spec (section 3) and from how
    App.tsx uses them ([theme === 'dark' ? 'light-green' : 'dark'],
    [result.text], [result.sources], [s.title], [s.uri]); the values of the
    [LawSystem] enum are unknown and left as a parameter, [LawSystemEnum].
    [Outcome] is how
    the promise returned by [analyzeLegalCase] settles, [Request] the
    arguments one call captured. *)

From stdpp Require Import base list gmap strings.
From Stdlib Require Import NArith.
From S2P Require Import Prelude JsString.

Inductive AppTheme := Dark | LightGreen.

Record Source := mkSource { title : jstr; uri : jstr }.

Record AnalysisResult := mkResult { text : jstr; sources : list Source }.

(** The promise of [analyzeLegalCase(lawSystem, details)] either resolves
    with a result or rejects (network, key or payload failure alike). *)
Inductive Outcome := Resolved (r : AnalysisResult) | Rejected.

(** The [LawSystem] enum of src/types.ts (not in the snapshot): the
    component only uses its values, [Object.values(LawSystem)], as the
    options of the select.  The development is parametric in them, as a
    class fixed once for the whole program. *)
Class LawSystemEnum := { law_system_values : list jstr }.

(** The arguments an in-flight call was made with. *)
Record Request := mkRequest { req_lawSystem : jstr; req_details : jstr }.

#[export] Instance AppTheme_eq_dec : EqDecision AppTheme.
Proof. solve_decision. Defined.
#[export] Instance Source_eq_dec : EqDecision Source.
Proof. solve_decision. Defined.
#[export] Instance AnalysisResult_eq_dec : EqDecision AnalysisResult.
Proof. solve_decision. Defined.
#[export] Instance Request_eq_dec : EqDecision Request.
Proof. solve_decision. Defined.
#[export] Instance Outcome_eq_dec : EqDecision Outcome.
Proof. solve_decision. Defined.

(** Stand-in enum values for the concrete runs and witnesses (the real
    ones are in the missing src/types.ts); not an instance, each file
    that runs the component on concrete input declares it locally. *)
Definition sample_law_systems : LawSystemEnum := {| law_system_values := [lit "law"] |}.
