(* ===== verification/Storage.v ===== *)
(** * The browser's [sessionStorage]

    The Web Storage object the component reads on mount and writes on
    login and logout: a map from string keys to string values, with
    [getItem] (null when absent), [setItem] and [clear].  Modelled from the
    Web Storage API, as a [gmap]. *)

From stdpp Require Import base list gmap strings.
From Stdlib Require Import NArith.
From S2P Require Import Prelude JsString.

Abbreviation Storage := (gmap jstr jstr).

Definition getItem (k : jstr) (st : Storage) : option jstr := st !! k.
Definition setItem (k v : jstr) (st : Storage) : Storage := <[k := v]> st.
Definition clear (st : Storage) : Storage := ∅.

(** The key and value App.tsx uses for the session flag. *)
Definition auth_key : jstr := lit "waed_auth".
Definition auth_true : jstr := lit "true".

(** The flag is set: [sessionStorage.getItem('waed_auth') === 'true']. *)
Definition session_flag (st : Storage) : bool :=
  bool_decide (getItem auth_key st = Some auth_true).

Lemma getItem_setItem_eq k v st : getItem k (setItem k v st) = Some v.
Proof. apply lookup_insert_eq. Qed.

Lemma getItem_setItem_ne k k' v st : k <> k' -> getItem k' (setItem k v st) = getItem k' st.
Proof. intros. by apply lookup_insert_ne. Qed.

Lemma getItem_clear k st : getItem k (clear st) = None.
Proof. apply lookup_empty. Qed.

Lemma session_flag_setItem st : session_flag (setItem auth_key auth_true st) = true.
Proof. unfold session_flag. rewrite getItem_setItem_eq. by apply bool_decide_eq_true. Qed.

Lemma session_flag_clear st : session_flag (clear st) = false.
Proof. unfold session_flag. rewrite getItem_clear. by apply bool_decide_eq_false. Qed.

#[export] Hint Rewrite getItem_setItem_eq getItem_clear session_flag_setItem session_flag_clear : waed_rw.
