(* ===== verification/State.v ===== *)
(** * The component's state (src/App.tsx lines 43-53)

    [AppState] holds the nine [useState] hooks of [App]; each setter
    [setX] is the hook's setter.  A handler that calls several setters is
    the composition of them in call order (React batches them, and a later
    call of a setter overrides an earlier one).  [World] adds what lives
    outside React state: the [sessionStorage] object, the calls of
    [analyzeLegalCase] still in flight, and whether the mount effect has
    run. *)

From stdpp Require Import base list gmap strings.
From Stdlib Require Import NArith.
From S2P Require Import Prelude JsString Types Storage.

Record AppState := mkAppState {
  theme : AppTheme;
  isAuthenticated : bool;
  username : jstr;
  password : jstr;
  loginError : jstr;
  isLoading : bool;
  lawSystem : jstr;
  details : jstr;
  result : option AnalysisResult
}.

(** Lines 44-52: the initial value of every hook. *)
Definition initial_app : AppState := {|
  theme := Dark; isAuthenticated := false; username := []; password := [];
  loginError := []; isLoading := false; lawSystem := []; details := [];
  result := None |}.

Definition setTheme (v : AppTheme) (s : AppState) : AppState :=
  mkAppState v (isAuthenticated s) (username s) (password s) (loginError s)
    (isLoading s) (lawSystem s) (details s) (result s).
Definition setIsAuthenticated (v : bool) (s : AppState) : AppState :=
  mkAppState (theme s) v (username s) (password s) (loginError s)
    (isLoading s) (lawSystem s) (details s) (result s).
Definition setUsername (v : jstr) (s : AppState) : AppState :=
  mkAppState (theme s) (isAuthenticated s) v (password s) (loginError s)
    (isLoading s) (lawSystem s) (details s) (result s).
Definition setPassword (v : jstr) (s : AppState) : AppState :=
  mkAppState (theme s) (isAuthenticated s) (username s) v (loginError s)
    (isLoading s) (lawSystem s) (details s) (result s).
Definition setLoginError (v : jstr) (s : AppState) : AppState :=
  mkAppState (theme s) (isAuthenticated s) (username s) (password s) v
    (isLoading s) (lawSystem s) (details s) (result s).
Definition setIsLoading (v : bool) (s : AppState) : AppState :=
  mkAppState (theme s) (isAuthenticated s) (username s) (password s)
    (loginError s) v (lawSystem s) (details s) (result s).
Definition setLawSystem (v : jstr) (s : AppState) : AppState :=
  mkAppState (theme s) (isAuthenticated s) (username s) (password s)
    (loginError s) (isLoading s) v (details s) (result s).
Definition setDetails (v : jstr) (s : AppState) : AppState :=
  mkAppState (theme s) (isAuthenticated s) (username s) (password s)
    (loginError s) (isLoading s) (lawSystem s) v (result s).
Definition setResult (v : option AnalysisResult) (s : AppState) : AppState :=
  mkAppState (theme s) (isAuthenticated s) (username s) (password s)
    (loginError s) (isLoading s) (lawSystem s) (details s) v.

Record World := mkWorld {
  app : AppState;
  store : Storage;
  inflight : list Request;
  mounted : bool
}.

(** A page load: fresh React state, the tab's [sessionStorage] as it was
    left (it survives a reload), nothing in flight, the effect not run. *)
Definition initial_world (st : Storage) : World :=
  mkWorld initial_app st [] false.

Definition with_app (f : AppState -> AppState) (w : World) : World :=
  mkWorld (f (app w)) (store w) (inflight w) (mounted w).

#[export] Instance AppState_eq_dec : EqDecision AppState.
Proof. solve_decision. Defined.

(** The fields of the component that are not presentation: everything but
    [theme]. *)
Definition logic_fields (s : AppState) :=
  (isAuthenticated s, username s, password s, loginError s, isLoading s,
   lawSystem s, details s, result s).

(** [simpl_state]: compute the hook setters and field accesses and nothing
    else (string literals stay folded). *)
Ltac simpl_state :=
  cbv beta iota delta [with_app setTheme setIsAuthenticated setUsername setPassword
    setLoginError setIsLoading setLawSystem setDetails setResult
    theme isAuthenticated username password loginError isLoading lawSystem details
    result app store inflight mounted].
