(* ===== verification/Render.v ===== *)
(** * Rendering: the view as a function of the state (src/App.tsx lines 94-218)

    [render] gives what the component displays: the theme's colour tokens
    ([themeStyle], lines 94-96), then either the login screen (lines
    98-136, when not authenticated) or the main screen (lines 138-218):
    the header (lines 6-41), the two form fields, the submit
    button's [disabled] attribute (line 180) and label (line 183), and the
    result panel (lines 188-211) with its text and, when there are
    sources, the list of links.  The class names of every element are
    modelled in full ([header_view], [login_classes], [main_classes]), and
    those of the error line, the result panel and its sources block
    ([login_error_line_class], [panel_classes], [sources_classes]) appear
    exactly when the element is rendered; the
    fixed Arabic headings and placeholders carry no state and are not
    modelled. *)

From stdpp Require Import base list gmap strings.
From Stdlib Require Import NArith.
From S2P Require Import Prelude JsString Types Storage State.

Record ThemeStyle := mkThemeStyle { bg : jstr; card : jstr; accent : jstr; btn : jstr }.

(** Lines 94-96. *)
Definition themeStyle (t : AppTheme) : ThemeStyle :=
  match t with
  | Dark => mkThemeStyle (lit "bg-[#0a0f1e]")
              (lit "bg-slate-900/50 border-white/5 backdrop-blur-xl")
              (lit "text-amber-500")
              (lit "bg-amber-600 hover:bg-amber-500 text-black shadow-amber-500/20")
  | LightGreen => mkThemeStyle (lit "bg-slate-50")
              (lit "bg-white border-slate-200 shadow-xl")
              (lit "text-green-700")
              (lit "bg-green-700 hover:bg-green-800 text-white shadow-green-700/20")
  end.

(** Line 24: the toggle's label names the mode it switches to. *)
Definition toggle_label (t : AppTheme) : jstr :=
  match t with
  | Dark => lit "الوضع الرسمي"
  | LightGreen => lit "الوضع الذهبي"
  end.

(** [theme === 'dark' ? d : l] inside a template literal. *)
Definition by_theme (t : AppTheme) (d l : jstr) : jstr :=
  match t with Dark => d | LightGreen => l end.

(** The [Header] component's markup (lines 6-41) as a function of the
    theme: its class names, the logout button and the toggle button. *)
Record HeaderView := mkHeaderView {
  header_class : jstr;
  logout_class : jstr;
  logout_text : jstr;
  toggle_class : jstr;
  toggle_text : jstr;
  title_class : jstr;
  logo_box_class : jstr;
  logo_text_class : jstr
}.

Definition header_view (t : AppTheme) : HeaderView := {|
  header_class := lit "flex justify-between items-center p-6 w-full max-w-7xl mx-auto border-b transition-all duration-500 no-print "
    ++ by_theme t (lit "border-white/10") (lit "border-black/5");
  logout_class := lit "px-4 py-2 bg-red-500/10 text-red-500 rounded-lg text-xs font-bold hover:bg-red-500 hover:text-white transition-all active:scale-95";
  logout_text := lit "خروج";
  toggle_class := lit "p-2 rounded-lg border transition-all "
    ++ by_theme t (lit "border-amber-500/30 text-amber-500 hover:bg-amber-500/10")
                  (lit "border-green-600/30 text-green-700 hover:bg-green-50");
  toggle_text := toggle_label t;
  title_class := lit "text-xl font-black leading-none "
    ++ by_theme t (lit "text-white") (lit "text-slate-800");
  logo_box_class := lit "w-12 h-12 rounded-2xl flex items-center justify-center border shadow-xl "
    ++ by_theme t (lit "bg-slate-900 border-amber-500/40") (lit "bg-green-700 border-green-800");
  logo_text_class := lit "text-xl font-black "
    ++ by_theme t (lit "text-amber-500") (lit "text-white")
|}.

(** Lines 100-130: the class names of the login screen's elements that
    are always rendered. *)
Record LoginClasses := mkLoginClasses {
  login_container_class : jstr;
  login_card_class : jstr;
  login_brand_class : jstr;
  login_logo_box_class : jstr;
  login_logo_text_class : jstr;
  login_title_class : jstr;
  login_subtitle_class : jstr;
  login_form_class : jstr;
  username_input_class : jstr;
  password_input_class : jstr;
  login_button_class : jstr;
  login_footer_class : jstr
}.

Definition login_classes (t : AppTheme) : LoginClasses := {|
  login_container_class := lit "min-h-screen flex items-center justify-center p-6 " ++ bg (themeStyle t)  (* line 100 *);
  login_card_class := lit "w-full max-w-md p-10 rounded-[2.5rem] border shadow-2xl transition-all " ++ card (themeStyle t)  (* line 101 *);
  login_brand_class := lit "text-center mb-10"  (* line 102 *);
  login_logo_box_class := lit "w-20 h-20 mx-auto rounded-3xl flex items-center justify-center mb-6 border-2 " ++ by_theme t (lit "border-amber-500/40 bg-amber-500/5") (lit "border-green-600/20 bg-green-50")  (* line 103 *);
  login_logo_text_class := lit "text-4xl font-black " ++ accent (themeStyle t)  (* line 104 *);
  login_title_class := lit "text-2xl font-black tracking-tight"  (* line 106 *);
  login_subtitle_class := lit "text-xs opacity-50 mt-2 font-bold"  (* line 107 *);
  login_form_class := lit "space-y-5"  (* line 110 *);
  username_input_class := lit "w-full px-6 py-4 rounded-xl border focus:outline-none font-bold transition-all " ++ by_theme t (lit "bg-black/40 border-white/10 text-white focus:border-amber-500") (lit "bg-slate-50 border-slate-200 text-slate-900 focus:border-green-600")  (* line 116 *);
  password_input_class := lit "w-full px-6 py-4 rounded-xl border focus:outline-none font-bold transition-all " ++ by_theme t (lit "bg-black/40 border-white/10 text-white focus:border-amber-500") (lit "bg-slate-50 border-slate-200 text-slate-900 focus:border-green-600")  (* line 123 *);
  login_button_class := lit "w-full py-4 rounded-xl font-black text-lg transition-all active:scale-95 shadow-lg " ++ btn (themeStyle t)  (* line 126 *);
  login_footer_class := lit "mt-8 text-center opacity-30 text-[10px] font-bold"  (* line 130 *)
|}.

(** Lines 139-215: the class names of the main screen's elements that
    are always rendered (the result panel's are below). *)
Record MainClasses := mkMainClasses {
  main_container_class : jstr;
  main_class : jstr;
  intro_class : jstr;
  main_title_class : jstr;
  main_title_accent_class : jstr;
  intro_text_class : jstr;
  form_class : jstr;
  form_body_class : jstr;
  law_label_class : jstr;
  law_select_class : jstr;
  details_label_class : jstr;
  details_textarea_class : jstr;
  submit_class : jstr;
  footer_class : jstr;
  footer_text_class : jstr
}.

Definition main_classes (t : AppTheme) : MainClasses := {|
  main_container_class := lit "min-h-screen transition-colors duration-700 " ++ bg (themeStyle t) ++ lit " text-inherit"  (* line 139 *);
  main_class := lit "max-w-4xl mx-auto px-6 py-12"  (* line 146 *);
  intro_class := lit "text-center mb-12 no-print"  (* line 147 *);
  main_title_class := lit "text-5xl font-black mb-4 " ++ by_theme t (lit "text-white") (lit "text-slate-900")  (* line 148 *);
  main_title_accent_class := accent (themeStyle t)  (* line 149 *);
  intro_text_class := lit "opacity-50 font-bold"  (* line 151 *);
  form_class := lit "p-8 rounded-[2rem] border shadow-2xl no-print " ++ card (themeStyle t)  (* line 154 *);
  form_body_class := lit "space-y-8"  (* line 155 *);
  law_label_class := lit "block text-xs font-black uppercase tracking-widest opacity-40 mb-3 mr-2"  (* line 157 *);
  law_select_class := lit "w-full p-4 rounded-xl border font-bold text-lg focus:outline-none appearance-none cursor-pointer " ++ by_theme t (lit "bg-black/40 border-white/10 text-white") (lit "bg-slate-50 border-slate-200 text-slate-800")  (* line 161 *);
  details_label_class := lit "block text-xs font-black uppercase tracking-widest opacity-40 mb-3 mr-2"  (* line 169 *);
  details_textarea_class := lit "w-full p-6 rounded-2xl border font-medium text-lg leading-relaxed focus:outline-none resize-none " ++ by_theme t (lit "bg-black/40 border-white/10 text-white focus:border-amber-500") (lit "bg-slate-50 border-slate-200 text-slate-800 focus:border-green-600")  (* line 175 *);
  submit_class := lit "w-full py-5 rounded-2xl font-black text-xl transition-all active:scale-95 disabled:opacity-20 " ++ btn (themeStyle t)  (* line 181 *);
  footer_class := lit "py-10 text-center no-print"  (* line 214 *);
  footer_text_class := lit "text-[10px] font-black opacity-20 uppercase tracking-[0.4em]"  (* line 215 *)
|}.

(** Line 125: the class of the error line, rendered only when
    [loginError] is non-empty. *)
Definition login_error_line_class : jstr := lit "text-red-500 text-[10px] font-bold text-center px-2".

(** Lines 200-204: the classes of the sources block, rendered only when
    [result.sources.length > 0]. *)
Record SourcesClasses := mkSourcesClasses {
  sources_class : jstr;
  sources_label_class : jstr;
  links_class : jstr;
  link_class : jstr
}.

Definition sources_classes (t : AppTheme) : SourcesClasses := {|
  sources_class := lit "mt-10 pt-8 border-t border-white/5 no-print"  (* line 200 *);
  sources_label_class := lit "text-[10px] font-black uppercase tracking-widest mb-4 " ++ accent (themeStyle t)  (* line 201 *);
  links_class := lit "flex flex-wrap gap-3"  (* line 202 *);
  link_class := lit "px-4 py-2 bg-white/5 border border-white/10 rounded-lg text-[10px] font-bold hover:border-amber-500/50 transition-all"  (* line 204 *)
|}.

(** Lines 189-207: the classes of the result panel, rendered only when a
    result is stored. *)
Record PanelClasses := mkPanelClasses {
  result_wrap_class : jstr;
  result_card_class : jstr;
  result_head_class : jstr;
  result_title_class : jstr;
  print_class : jstr;
  result_text_class : jstr;
  panel_sources_classes : option SourcesClasses
}.

Definition panel_classes (t : AppTheme) (r : AnalysisResult) : PanelClasses := {|
  result_wrap_class := lit "mt-12 animate-fade-in"  (* line 189 *);
  result_card_class := lit "p-10 rounded-[2.5rem] border shadow-2xl " ++ card (themeStyle t)  (* line 190 *);
  result_head_class := lit "flex justify-between items-center mb-8 border-b border-white/10 pb-6"  (* line 191 *);
  result_title_class := lit "text-2xl font-black"  (* line 192 *);
  print_class := lit "text-xs font-bold underline opacity-50 no-print hover:opacity-100"  (* line 193 *);
  result_text_class := lit "text-xl leading-[2] whitespace-pre-wrap font-medium " ++ by_theme t (lit "text-slate-200") (lit "text-slate-800")  (* line 195 *);
  panel_sources_classes :=
    match sources r with [] => None | _ => Some (sources_classes t) end  (* line 199 *)
|}.

(** The class names of the screen shown below the header, with those of
    the conditionally rendered elements present exactly when they are. *)
Inductive ScreenClasses :=
  | LoginScreenClasses (c : LoginClasses) (error_line : option jstr)
  | MainScreenClasses (c : MainClasses) (panel : option PanelClasses).

(** Lines 164-165: the options of the law-system select, the empty
    placeholder first, then [Object.values(LawSystem)] in order. *)
Definition law_select_options `{LawSystemEnum} : list jstr := [] :: law_system_values.

(** Line 183. *)
Definition submit_label (loading : bool) : jstr :=
  if loading then lit "جاري التحليل الرقمي..." else lit "توليد التحليل القانوني".

Record ResultPanel := mkResultPanel {
  panel_text : jstr;
  panel_links : option (list (jstr * jstr))   (** (href, label) of each link *)
}.

Inductive Screen :=
  | LoginScreen (user_value pass_value : jstr) (error_text : option jstr)
  | MainScreen (law_value details_value : jstr) (submit_disabled : bool)
      (submit_text : jstr) (panel : option ResultPanel).

Record View := mkView {
  view_style : ThemeStyle;
  view_header : option HeaderView;   (** the header, main screen only *)
  view_classes : ScreenClasses;
  view_screen : Screen
}.

(** Lines 188-211: the panel of a stored result; the sources block only
    when [result.sources.length > 0], one link per source in order. *)
Definition result_panel (r : AnalysisResult) : ResultPanel :=
  mkResultPanel (text r)
    (match sources r with
     | [] => None
     | ss => Some (map (fun s => (uri s, title s)) ss)
     end).

(** Line 180: [isLoading || !lawSystem || !details]. *)
Definition submit_disabled_of (s : AppState) : bool :=
  isLoading s || negb (js_truthy (lawSystem s)) || negb (js_truthy (details s)).

Definition render (s : AppState) : View :=
  if negb (isAuthenticated s) then
    mkView (themeStyle (theme s)) None
      (LoginScreenClasses (login_classes (theme s))
         (if js_truthy (loginError s) then Some login_error_line_class else None))
      (LoginScreen (username s) (password s)
         (if js_truthy (loginError s) then Some (loginError s) else None))
  else
    mkView (themeStyle (theme s)) (Some (header_view (theme s)))
      (MainScreenClasses (main_classes (theme s))
         (option_map (panel_classes (theme s)) (result s)))
      (MainScreen (lawSystem s) (details s) (submit_disabled_of s)
         (submit_label (isLoading s)) (option_map result_panel (result s))).

(** Whether an optional element is rendered. *)
Definition present {A} (o : option A) : bool := match o with Some _ => true | None => false end.

(** The elements a screen renders: which screen, whether the error line
    (login) or the result panel (main) is there, and whether the panel
    has its sources block. *)
Definition screen_shape (sc : Screen) : bool * bool * bool :=
  match sc with
  | LoginScreen _ _ e => (true, present e, false)
  | MainScreen _ _ _ _ p =>
      (false, present p, match p with Some pn => present (panel_links pn) | None => false end)
  end.

Definition is_login_screen (v : View) : bool :=
  match view_screen v with LoginScreen _ _ _ => true | MainScreen _ _ _ _ _ => false end.

Lemma is_login_screen_render s : is_login_screen (render s) = negb (isAuthenticated s).
Proof. unfold render. by destruct (isAuthenticated s). Qed.

Lemma render_setTheme_screen t s : view_screen (render (setTheme t s)) = view_screen (render s).
Proof. unfold render. simpl. by destruct (isAuthenticated s). Qed.

#[export] Hint Rewrite is_login_screen_render render_setTheme_screen : waed_rw.

Lemma login_classes_inj t t' : login_classes t = login_classes t' -> t = t'.
Proof.
  destruct t, t'; try done; intros E; apply (f_equal login_container_class) in E;
    vm_compute in E; discriminate.
Qed.

Lemma main_classes_inj t t' : main_classes t = main_classes t' -> t = t'.
Proof.
  destruct t, t'; try done; intros E; apply (f_equal main_container_class) in E;
    vm_compute in E; discriminate.
Qed.

Lemma panel_classes_links t t' r r' :
  panel_classes t r = panel_classes t' r' ->
  present (panel_links (result_panel r)) = present (panel_links (result_panel r')).
Proof.
  intros E. apply (f_equal panel_sources_classes) in E. simpl in E. unfold result_panel.
  destruct (sources r), (sources r'); simpl; congruence.
Qed.

Lemma panel_classes_same t r r' :
  present (panel_links (result_panel r)) = present (panel_links (result_panel r')) ->
  panel_classes t r = panel_classes t r'.
Proof.
  unfold panel_classes, result_panel. simpl. destruct (sources r), (sources r'); simpl; congruence.
Qed.

Lemma main_screen_classes_inj c c' p p' :
  MainScreenClasses c p = MainScreenClasses c' p' -> c = c' /\ p = p'.
Proof. by intros [= -> ->]. Qed.

Lemma login_screen_classes_inj c c' e e' :
  LoginScreenClasses c e = LoginScreenClasses c' e' -> c = c' /\ e = e'.
Proof. by intros [= -> ->]. Qed.

Lemma present_if {A} (b b' : bool) (x : A) :
  (if b then Some x else None) = (if b' then Some x else None) <-> b = b'.
Proof. by destruct b, b'. Qed.

(** C28. The class names of the rendered page are determined by the
    theme and by which elements are rendered, and by nothing else: two
    states get the same class names exactly when they have the same theme
    and render the same screen with the same optional parts (error line,
    result panel, sources block).  So the theme toggle changes the
    classes of every screen, and no typed value, error text or result
    text reaches them. *)
Theorem view_classes_iff (s s' : AppState) :
  view_classes (render s) = view_classes (render s') <->
  theme s = theme s' /\ screen_shape (view_screen (render s)) = screen_shape (view_screen (render s')).
Proof.
  unfold render. destruct (isAuthenticated s), (isAuthenticated s'); simpl;
    split; try (intros [_ ?]; discriminate); try discriminate.
  - intros [Ht Hp]%main_screen_classes_inj.
    apply main_classes_inj in Ht. split; [done|].
    destruct (result s), (result s'); simpl in Hp; try done.
    apply (f_equal (default (panel_classes (theme s) a))) in Hp. simpl in Hp.
    cbn [option_map screen_shape]. by rewrite (panel_classes_links _ _ _ _ Hp).
  - intros [Ht Hsh]. rewrite Ht. f_equal.
    destruct (result s), (result s'); cbn [option_map screen_shape] in *; try done.
    injection Hsh as Hsh. by rewrite (panel_classes_same (theme s') a a0 Hsh).
  - intros [Ht He%present_if]%login_screen_classes_inj. apply login_classes_inj in Ht.
    split; [done|]. by destruct (js_truthy (loginError s)), (js_truthy (loginError s')).
  - intros [Ht Hsh]. rewrite Ht. f_equal. apply present_if.
    by destruct (js_truthy (loginError s)), (js_truthy (loginError s')).
Qed.
