(* ===== verification/Login.v ===== *)
(** * The login gate: [handleLogin] (src/App.tsx lines 60-77)

    The handler clears the error, normalises the typed credentials
    (username: [trim().toUpperCase()]; password: the same followed by
    [replace(/\s/g, '')]) and compares them with the two literal pairs.
    On a match it sets [isAuthenticated] and writes the session flag; on a
    mismatch it sets the fixed error text.  The theorems characterise the
    accepted inputs exactly on strings of ASCII and white space, show that
    white space inside the username always fails, and exhibit a non-ASCII
    username that the upper-casing lets through. *)

From stdpp Require Import base list gmap strings.
From Stdlib Require Import NArith.
From S2P Require Import Prelude JsString Types Storage State Render.

Local Open Scope N_scope.

Definition login_error_msg : jstr :=
  lit "بيانات الدخول غير صحيحة. تأكد من الحروف والمسافات.".

(** Lines 68-71: the two accepted pairs, compared with [===]. *)
Definition credentials_ok (u p : jstr) : bool :=
  bool_decide (u = lit "ADMIN1" /\ p = lit "ADMIN1")
  || bool_decide (u = lit "ADMIN" /\ p = lit "ADMIN6787").

Arguments credentials_ok : simpl never.

Section Login.
Context `{CaseMapping}.

(** Line 64. *)
Definition normalize_username (u : jstr) : jstr := js_toUpperCase (js_trim u).
(** Line 65. *)
Definition normalize_password (p : jstr) : jstr :=
  js_strip_ws (js_toUpperCase (js_trim p)).

(** Lines 60-77, [e.preventDefault()] having no effect on the state. *)
Definition handleLogin (w : World) : World :=
  let s := setLoginError [] (app w) in
  let u := normalize_username (username s) in
  let p := normalize_password (password s) in
  if credentials_ok u p then
    mkWorld (setIsAuthenticated true s) (setItem auth_key auth_true (store w))
      (inflight w) (mounted w)
  else mkWorld (setLoginError login_error_msg s) (store w) (inflight w) (mounted w).
End Login.

(** The credentials the handler accepts, stated on the raw input: the
    trimmed username and the password without white space are case
    variants of one literal pair. *)
Definition accepted_variant (u p : jstr) : Prop :=
  (ci_variant (js_trim u) (lit "ADMIN1") /\ ci_variant (js_strip_ws p) (lit "ADMIN1"))
  \/ (ci_variant (js_trim u) (lit "ADMIN") /\ ci_variant (js_strip_ws p) (lit "ADMIN6787")).

(** ** Helper lemmas *)

Lemma credentials_ok_iff u p :
  credentials_ok u p = true <->
  (u = lit "ADMIN1" /\ p = lit "ADMIN1") \/ (u = lit "ADMIN" /\ p = lit "ADMIN6787").
Proof.
  unfold credentials_ok. rewrite orb_true_iff, !bool_decide_eq_true. done.
Qed.

Lemma credential_lits_ascii :
  all_ascii (lit "ADMIN1") /\ all_ascii (lit "ADMIN") /\ all_ascii (lit "ADMIN6787").
Proof. vm_compute. repeat constructor. Qed.

Lemma credential_lits_nonempty :
  lit "ADMIN1" <> [] /\ lit "ADMIN" <> [] /\ lit "ADMIN6787" <> [].
Proof. vm_compute. split_and!; discriminate. Qed.

Lemma credential_lits_no_space t :
  t = lit "ADMIN1" \/ t = lit "ADMIN" \/ t = lit "ADMIN6787" ->
  Forall (fun c => is_js_space c = false) t.
Proof. intros [-> | [-> | ->]]; vm_compute; repeat constructor. Qed.

Lemma credential_lits_no_F_S t :
  t = lit "ADMIN1" \/ t = lit "ADMIN" \/ t = lit "ADMIN6787" ->
  all_ascii t /\ (70 ∉ t) /\ (83 ∉ t).
Proof. intros [-> | [-> | ->]]; split_and!; decide_by_compute. Qed.

Lemma ci_variant_iff v t : all_ascii t -> ci_variant v t <-> map ascii_upcase v = t.
Proof.
  intros Ht. unfold ci_variant. split; [tauto|].
  intros Hv. split; [|done]. by eapply map_ascii_upcase_ascii.
Qed.

Section LoginLemmas.
Context `{CaseMapping}.

Lemma normalize_username_latin u :
  Forall ascii_or_space u -> normalize_username u = map ascii_upcase (js_trim u).
Proof. intros Hu. by apply js_toUpperCase_ascii_or_space, js_trim_Forall. Qed.

Lemma normalize_password_latin p :
  Forall ascii_or_space p -> normalize_password p = map ascii_upcase (js_strip_ws p).
Proof.
  intros Hp. unfold normalize_password.
  rewrite js_toUpperCase_ascii_or_space by by apply js_trim_Forall.
  by rewrite js_strip_ws_map_upcase, js_strip_ws_trim.
Qed.

Lemma normalize_username_blank u : all_space u -> normalize_username u = [].
Proof. intros Hu. unfold normalize_username. by rewrite js_trim_all_space. Qed.

Lemma normalize_password_blank p : all_space p -> normalize_password p = [].
Proof. intros Hp. unfold normalize_password. by rewrite js_trim_all_space. Qed.

Lemma normalize_username_same_case u u' :
  Forall2 same_case u u' -> normalize_username u = normalize_username u'.
Proof.
  intros Hu. unfold normalize_username. apply js_toUpperCase_Forall2.
  apply (Forall2_impl same_case); [|by intros ? ? []].
  apply js_trim_Forall2; [by intros ? ? []|exact Hu].
Qed.

Lemma normalize_password_same_case p p' :
  Forall2 same_case p p' -> normalize_password p = normalize_password p'.
Proof.
  intros Hp. unfold normalize_password. f_equal. apply js_toUpperCase_Forall2.
  apply (Forall2_impl same_case); [|by intros ? ? []].
  apply js_trim_Forall2; [by intros ? ? []|exact Hp].
Qed.

Lemma handleLogin_ok w :
  credentials_ok (normalize_username (username (app w)))
    (normalize_password (password (app w))) = true ->
  handleLogin w = mkWorld (setIsAuthenticated true (setLoginError [] (app w)))
                    (setItem auth_key auth_true (store w)) (inflight w) (mounted w).
Proof. intros Hok. unfold handleLogin. simpl. by rewrite Hok. Qed.

Lemma handleLogin_not_ok w :
  credentials_ok (normalize_username (username (app w)))
    (normalize_password (password (app w))) = false ->
  handleLogin w = with_app (setLoginError login_error_msg) w.
Proof. intros Hok. unfold handleLogin. simpl. by rewrite Hok. Qed.
End LoginLemmas.

Section LoginTheorems.
Context `{CaseMapping}.

Lemma credentials_ok_latin u p :
  Forall ascii_or_space u -> Forall ascii_or_space p ->
  credentials_ok (normalize_username u) (normalize_password p) = true <->
  accepted_variant u p.
Proof.
  intros Hu Hp. destruct credential_lits_ascii as (H1 & H2 & H3).
  rewrite normalize_username_latin, normalize_password_latin, credentials_ok_iff by done.
  unfold accepted_variant. by rewrite !ci_variant_iff.
Qed.

(** C1. On input typed in ASCII and white space, a login attempt from the
    gate succeeds exactly when the trimmed username and the password with
    all white space removed are, ignoring ASCII case, [ADMIN1]/[ADMIN1] or
    [ADMIN]/[ADMIN6787]. *)
Theorem handleLogin_latin_iff (w : World) :
  Forall ascii_or_space (username (app w)) ->
  Forall ascii_or_space (password (app w)) ->
  isAuthenticated (app w) = false ->
  isAuthenticated (app (handleLogin w)) = true <->
  accepted_variant (username (app w)) (password (app w)).
Proof.
  intros Hu Hp Ha. rewrite <- credentials_ok_latin by done.
  destruct (credentials_ok _ _) eqn:Hok.
  - by rewrite handleLogin_ok.
  - rewrite handleLogin_not_ok by done. simpl. by rewrite Ha.
Qed.

(** C2. A rejected login (the normalised pair is neither accepted pair)
    keeps the login screen, shows the fixed error text under the form
    with the typed values still in the fields, and changes nothing else:
    the session storage and every other field of the state stay as they
    were. *)
Theorem handleLogin_reject (w : World) :
  credentials_ok (normalize_username (username (app w)))
    (normalize_password (password (app w))) = false ->
  isAuthenticated (app w) = false ->
  view_screen (render (app (handleLogin w)))
    = LoginScreen (username (app w)) (password (app w)) (Some login_error_msg) /\
  store (handleLogin w) = store w /\
  logic_fields (setLoginError [] (app (handleLogin w)))
    = logic_fields (setLoginError [] (app w)).
Proof.
  intros Hok Ha. rewrite handleLogin_not_ok by done.
  unfold render. simpl. by rewrite Ha.
Qed.

(** C3. White space left inside the trimmed username (the password has
    its white space removed, the username does not) makes every login
    attempt fail, whatever the password. *)
Theorem username_inner_space_rejected (w : World) a c b :
  js_trim (username (app w)) = a ++ c :: b -> is_js_space c = true ->
  loginError (app (handleLogin w)) = login_error_msg.
Proof.
  intros Ht Hc. rewrite handleLogin_not_ok; [done|].
  apply not_true_iff_false. rewrite credentials_ok_iff.
  assert (Hin : c ∈ normalize_username (username (app w))).
  { unfold normalize_username. rewrite Ht, js_toUpperCase_app. simpl.
    rewrite upper_cp_space by done. set_solver. }
  intros Hlits. assert (Hno : Forall (fun c => is_js_space c = false)
                                (normalize_username (username (app w)))).
  { apply credential_lits_no_space. destruct Hlits as [[-> _] | [-> _]]; auto. }
  rewrite Forall_forall in Hno. specialize (Hno c Hin). congruence.
Qed.
(** C19. The username normalisation of line 64 ignores exactly the white
    space around the name: a name with no white space at either end,
    wrapped in any JavaScript white space (non-ASCII included), normalises
    to its own upper-case form, and any typed username normalises as its
    trimmed core does. *)
Theorem normalize_username_frame (l m r : jstr) :
  all_space l -> all_space r -> trimmed m ->
  normalize_username (l ++ m ++ r) = js_toUpperCase m /\
  normalize_username (l ++ m ++ r) = normalize_username m.
Proof.
  intros Hl Hr Hm. unfold normalize_username.
  rewrite (proj2 (js_trim_spec (l ++ m ++ r) m)) by eauto 10.
  rewrite (proj2 (js_trim_spec m m)); [done|].
  exists [], []. rewrite app_nil_r. split_and!; try done; constructor.
Qed.
(** C23. Whatever the full Unicode case table, as long as it obeys the
    laws of [CaseMapping]: every code point of an accepted username (after
    trimming) is ASCII or U+0131, and every code point of an accepted
    password is ASCII, U+0131 or white space.  Together with C1 and C4
    this pins down the accepted credentials. *)
Theorem accepted_credentials_code_points (u p : jstr) :
  credentials_ok (normalize_username u) (normalize_password p) = true ->
  Forall (fun c => c < 128 \/ c = 305) (js_trim u) /\
  Forall (fun c => c < 128 \/ c = 305 \/ is_js_space c = true) p.
Proof.
  intros Hok. apply credentials_ok_iff in Hok.
  assert (Hlits : exists tu tp, normalize_username u = tu /\ normalize_password p = tp /\
            (tu = lit "ADMIN1" \/ tu = lit "ADMIN" \/ tu = lit "ADMIN6787") /\
            (tp = lit "ADMIN1" \/ tp = lit "ADMIN" \/ tp = lit "ADMIN6787")).
  { destruct Hok as [[-> ->] | [-> ->]]; eauto 10. }
  destruct Hlits as (tu & tp & Hu & Hp & (Atu & Ftu & Stu)%credential_lits_no_F_S
                     & (Atp & Ftp & Stp)%credential_lits_no_F_S).
  split; apply Forall_forall; intros c Hc.
  - apply (code_point_into c tu); [|done..]. intros d Hd. rewrite <- Hu.
    eapply elem_of_js_toUpperCase; eauto.
  - destruct (is_js_space c) eqn:Ws; [by right; right|].
    cut (c < 128 \/ c = 305); [tauto|].
    apply (code_point_into c tp); [|done..]. intros d Hd. rewrite <- Hp.
    unfold normalize_password, js_strip_ws. apply list_elem_of_filter. split.
    + pose proof (upper_cp_nonspace c Ws) as Hn. rewrite Forall_forall in Hn. by apply Hn.
    + eapply elem_of_js_toUpperCase; [|exact Hd]. by apply nonspace_in_trim.
Qed.

(** C4. The login reads the typed strings only through the case mapping
    and the white-space test: replacing code points of the username and
    the password by code points with the same upper-case image and the
    same white-space status gives the same outcome, error and storage,
    for every case table obeying the laws.  With Unicode's table this
    accepts credentials beyond the two literal spellings and their case
    and white-space variants: U+0131 (dotless i) upper-cases to [I], so
    [admın1] logs in as [admin1] does. *)
Theorem handleLogin_same_case (w : World) u' p' :
  Forall2 same_case (username (app w)) u' -> Forall2 same_case (password (app w)) p' ->
  let w' := with_app (fun s => setPassword p' (setUsername u' s)) w in
  isAuthenticated (app (handleLogin w')) = isAuthenticated (app (handleLogin w)) /\
  loginError (app (handleLogin w')) = loginError (app (handleLogin w)) /\
  store (handleLogin w') = store (handleLogin w).
Proof.
  intros Hu Hp w'.
  assert (Hn : normalize_username (username (app w')) = normalize_username (username (app w)) /\
               normalize_password (password (app w')) = normalize_password (password (app w))).
  { split; symmetry; [apply normalize_username_same_case|apply normalize_password_same_case];
      assumption. }
  destruct (credentials_ok (normalize_username (username (app w)))
              (normalize_password (password (app w)))) eqn:Hok.
  - rewrite (handleLogin_ok w') by (destruct Hn as [-> ->]; exact Hok).
    rewrite (handleLogin_ok w) by exact Hok.
    unfold w'. simpl_state. split_and!; reflexivity.
  - rewrite (handleLogin_not_ok w') by (destruct Hn as [-> ->]; exact Hok).
    rewrite (handleLogin_not_ok w) by exact Hok.
    unfold w'. simpl_state. split_and!; reflexivity.
Qed.
End LoginTheorems.

(** Witnesses. *)

Lemma handleLogin_latin_iff_witness :
  let w := mkWorld (setPassword (lit " ad min6787 ") (setUsername (lit "  Admin ") initial_app))
             ∅ [] true in
  (Forall ascii_or_space (username (app w)) /\ Forall ascii_or_space (password (app w))
   /\ isAuthenticated (app w) = false) /\
  (isAuthenticated (app (@handleLogin unicode_case w)) = true <->
   accepted_variant (username (app w)) (password (app w))).
Proof.
  intros w. split; [split; [decide_by_compute|split; [decide_by_compute|reflexivity]]|].
  apply handleLogin_latin_iff; [decide_by_compute|decide_by_compute|reflexivity].
Defined.

Lemma username_inner_space_rejected_witness :
  let w := mkWorld (setPassword (lit "ADMIN6787") (setUsername (lit " AD MIN") initial_app))
             ∅ [] true in
  (js_trim (username (app w)) = lit "AD" ++ 32%N :: lit "MIN" /\ is_js_space 32 = true) /\
  loginError (app (@handleLogin unicode_case w)) = login_error_msg.
Proof.
  intros w. split; [split; reflexivity|].
  apply (username_inner_space_rejected w (lit "AD") 32 (lit "MIN")); reflexivity.
Defined.

Lemma handleLogin_reject_witness :
  let w := mkWorld (setPassword (lit "ADMIN1") (setUsername (lit "ADMIN") initial_app))
             ∅ [] true in
  (credentials_ok (@normalize_username unicode_case (username (app w)))
     (@normalize_password unicode_case (password (app w))) = false /\
   isAuthenticated (app w) = false) /\
  view_screen (render (app (@handleLogin unicode_case w)))
    = LoginScreen (username (app w)) (password (app w)) (Some login_error_msg) /\
  store (@handleLogin unicode_case w) = store w /\
  logic_fields (setLoginError [] (app (@handleLogin unicode_case w)))
    = logic_fields (setLoginError [] (app w)).
Proof. intros w. split; [split; reflexivity|]. apply handleLogin_reject; reflexivity. Defined.

Lemma normalize_username_frame_witness :
  let l := [32; 160] in let m := lit "Admin" in let r := [12288; 10] in
  (all_space l /\ all_space r /\ trimmed m) /\
  (@normalize_username unicode_case (l ++ m ++ r) = js_toUpperCase m /\
   @normalize_username unicode_case (l ++ m ++ r) = normalize_username m).
Proof.
  intros l m r. assert (Hl : all_space l) by (vm_compute; repeat constructor).
  assert (Hr : all_space r) by (vm_compute; repeat constructor).
  assert (Hm : trimmed m) by (split; reflexivity).
  split; [auto|]. apply normalize_username_frame; assumption.
Defined.

Lemma accepted_credentials_code_points_witness :
  let u := lit " admın1 " in let p := lit "ad mın 1" in
  credentials_ok (@normalize_username unicode_case u) (@normalize_password unicode_case p) = true /\
  (Forall (fun c => c < 128 \/ c = 305) (js_trim u) /\
   Forall (fun c => c < 128 \/ c = 305 \/ is_js_space c = true) p).
Proof.
  intros u p. assert (Hok : credentials_ok (@normalize_username unicode_case u)
                              (@normalize_password unicode_case p) = true) by reflexivity.
  split; [exact Hok|]. exact (accepted_credentials_code_points u p Hok).
Defined.

Lemma handleLogin_same_case_witness :
  let w := mkWorld (setPassword (lit "admin1") (setUsername (lit "admin1") initial_app))
             ∅ [] true in
  (Forall2 (@same_case unicode_case) (username (app w)) (lit "admın1") /\
   Forall2 (@same_case unicode_case) (password (app w)) (lit "admın1")) /\
  let w' := with_app (fun s => setPassword (lit "admın1") (setUsername (lit "admın1") s)) w in
  isAuthenticated (app (@handleLogin unicode_case w')) = isAuthenticated (app (@handleLogin unicode_case w)) /\
  loginError (app (@handleLogin unicode_case w')) = loginError (app (@handleLogin unicode_case w)) /\
  store (@handleLogin unicode_case w') = store (@handleLogin unicode_case w).
Proof.
  intros w. assert (Hu : Forall2 (@same_case unicode_case) (username (app w)) (lit "admın1"))
    by decide_by_compute.
  assert (Hp : Forall2 (@same_case unicode_case) (password (app w)) (lit "admın1"))
    by decide_by_compute.
  split; [split; [exact Hu|exact Hp]|]. apply handleLogin_same_case; [exact Hu|exact Hp].
Defined.
