(* ===== verification/Analysis.v ===== *)
(** * The case-analysis orchestrator: [handleSubmit] (src/App.tsx lines 79-92)

    [handleSubmit] is an async function.  Its body up to the [await] runs
    when the form is submitted ([handleSubmit]): the guard on line 81, then
    [setResult(null)], [setIsLoading(true)] and the call of
    [analyzeLegalCase(lawSystem, details)], which adds a request to the
    world's in-flight list.  The rest runs when that call's promise settles
    ([handleSubmit_settle]): the result (or, from the [catch], the fixed
    fallback) is stored and [finally] clears the loading flag.  The
    external service itself is not modelled: a settlement carries an
    arbitrary [Outcome]. *)

From stdpp Require Import base list gmap strings.
From Stdlib Require Import NArith.
From S2P Require Import Prelude JsString Types Storage State.

(** Line 88: the text shown when the call fails. *)
Definition fallback_text : jstr :=
  lit "حدث خطأ أثناء التحليل. يرجى التحقق من اتصال الإنترنت أو صلاحية مفتاح الـ API.".

Definition fallback_result : AnalysisResult := mkResult fallback_text [].

(** Line 81: [!lawSystem || !details.trim()]. *)
Definition submit_blocked (s : AppState) : bool :=
  negb (js_truthy (lawSystem s)) || negb (js_truthy (js_trim (details s))).

(** Lines 79-85 up to the [await]. *)
Definition handleSubmit (w : World) : World :=
  let s := app w in
  if submit_blocked s then w
  else mkWorld (setIsLoading true (setResult None s)) (store w)
         (inflight w ++ [mkRequest (lawSystem s) (details s)]) (mounted w).

(** Lines 86-88: what [setResult] receives once the promise settles. *)
Definition settle_result (o : Outcome) : AnalysisResult :=
  match o with
  | Resolved r => r
  | Rejected => fallback_result
  end.

(** Lines 85-91 after the [await], for the [i]-th call in flight. *)
Definition handleSubmit_settle (i : nat) (o : Outcome) (w : World) : World :=
  match inflight w !! i with
  | None => w
  | Some _ =>
      mkWorld (setIsLoading false (setResult (Some (settle_result o)) (app w)))
        (store w) (delete i (inflight w)) (mounted w)
  end.

(** ** Lemmas *)

Lemma handleSubmit_blocked w : submit_blocked (app w) = true -> handleSubmit w = w.
Proof. unfold handleSubmit. by intros ->. Qed.

Lemma handleSubmit_go w :
  submit_blocked (app w) = false ->
  handleSubmit w = mkWorld (setIsLoading true (setResult None (app w))) (store w)
    (inflight w ++ [mkRequest (lawSystem (app w)) (details (app w))]) (mounted w).
Proof. unfold handleSubmit. by intros ->. Qed.

Lemma submit_blocked_iff s :
  submit_blocked s = true <-> lawSystem s = [] \/ js_trim (details s) = [].
Proof.
  unfold submit_blocked, js_truthy.
  destruct (lawSystem s), (js_trim (details s)); simpl; intuition congruence.
Qed.

Lemma handleSubmit_settle_some i o w r :
  inflight w !! i = Some r ->
  handleSubmit_settle i o w =
  mkWorld (setIsLoading false (setResult (Some (settle_result o)) (app w)))
    (store w) (delete i (inflight w)) (mounted w).
Proof. unfold handleSubmit_settle. by intros ->. Qed.

(** ** Theorems *)

(** C5. Submitting with no law system selected, or with case details that
    are empty after trimming, is a no-op: no state changes and no call to
    the analysis service is made. *)
Theorem handleSubmit_guard_noop (w : World) :
  lawSystem (app w) = [] \/ js_trim (details (app w)) = [] -> handleSubmit w = w.
Proof. intros H. by apply handleSubmit_blocked, submit_blocked_iff. Qed.

(** C6. A submission that passes the guard clears the previous result,
    raises the loading flag and makes exactly one new call, with the
    selected law system and the details as typed (not trimmed); the other
    fields, the storage and the calls already in flight are unchanged. *)
Theorem handleSubmit_starts_call (w : World) :
  lawSystem (app w) <> [] -> js_trim (details (app w)) <> [] ->
  inflight (handleSubmit w) = inflight w ++ [mkRequest (lawSystem (app w)) (details (app w))] /\
  result (app (handleSubmit w)) = None /\ isLoading (app (handleSubmit w)) = true /\
  app (handleSubmit w) = setIsLoading true (setResult None (app w)) /\
  store (handleSubmit w) = store w.
Proof.
  intros H1 H2. rewrite handleSubmit_go; [done|].
  apply not_true_iff_false. rewrite submit_blocked_iff. tauto.
Qed.

(** C7. When a call in flight resolves, its result replaces whatever result
    was stored (no accumulation), the loading flag is cleared and the call
    leaves the in-flight list. *)
Theorem settle_resolved_replaces (w : World) i req r :
  inflight w !! i = Some req ->
  result (app (handleSubmit_settle i (Resolved r) w)) = Some r /\
  isLoading (app (handleSubmit_settle i (Resolved r) w)) = false /\
  inflight (handleSubmit_settle i (Resolved r) w) = delete i (inflight w).
Proof. intros Hi. by rewrite (handleSubmit_settle_some _ _ _ _ Hi). Qed.

(** C8. When a call in flight fails, for any cause, the stored result is
    the fixed Arabic fallback text with an empty source list, and the
    loading flag is cleared. *)
Theorem settle_rejected_fallback (w : World) i req :
  inflight w !! i = Some req ->
  result (app (handleSubmit_settle i Rejected w)) = Some (mkResult fallback_text []) /\
  isLoading (app (handleSubmit_settle i Rejected w)) = false.
Proof. intros Hi. by rewrite (handleSubmit_settle_some _ _ _ _ Hi). Qed.

(** Witnesses. *)

Lemma handleSubmit_guard_noop_witness :
  let w := mkWorld (setDetails (lit " 
 ") (setLawSystem (lit "law") initial_app)) ∅ [] true in
  (lawSystem (app w) = [] \/ js_trim (details (app w)) = []) /\ handleSubmit w = w.
Proof. intros w. split; [right; reflexivity|]. apply handleSubmit_guard_noop. right. reflexivity. Defined.

Lemma handleSubmit_starts_call_witness :
  let w := mkWorld (setDetails (lit " a contract dispute ") (setLawSystem (lit "law") initial_app))
             ∅ [] true in
  (lawSystem (app w) <> [] /\ js_trim (details (app w)) <> []) /\
  inflight (handleSubmit w) = inflight w ++ [mkRequest (lawSystem (app w)) (details (app w))] /\
  result (app (handleSubmit w)) = None /\ isLoading (app (handleSubmit w)) = true /\
  app (handleSubmit w) = setIsLoading true (setResult None (app w)) /\
  store (handleSubmit w) = store w.
Proof.
  intros w. split; [split; discriminate|].
  apply handleSubmit_starts_call; discriminate.
Defined.

Lemma settle_resolved_replaces_witness :
  let r := mkResult (lit "analysis") [mkSource (lit "ref") (lit "https://example.org")] in
  let w := mkWorld (setResult (Some fallback_result) initial_app) ∅
             [mkRequest (lit "law") (lit "facts")] true in
  inflight w !! 0 = Some (mkRequest (lit "law") (lit "facts")) /\
  result (app (handleSubmit_settle 0 (Resolved r) w)) = Some r /\
  isLoading (app (handleSubmit_settle 0 (Resolved r) w)) = false /\
  inflight (handleSubmit_settle 0 (Resolved r) w) = delete 0 (inflight w).
Proof.
  intros r w. split; [reflexivity|].
  apply (settle_resolved_replaces w 0 (mkRequest (lit "law") (lit "facts"))). reflexivity.
Defined.

Lemma settle_rejected_fallback_witness :
  let w := mkWorld initial_app ∅ [mkRequest (lit "law") (lit "facts")] true in
  inflight w !! 0 = Some (mkRequest (lit "law") (lit "facts")) /\
  result (app (handleSubmit_settle 0 Rejected w)) = Some (mkResult fallback_text []) /\
  isLoading (app (handleSubmit_settle 0 Rejected w)) = false.
Proof.
  intros w. split; [reflexivity|].
  apply (settle_rejected_fallback w 0 (mkRequest (lit "law") (lit "facts"))). reflexivity.
Defined.
