(* ===== verification/Header.v ===== *)
(** * The header's callbacks: theme toggle and logout

    [Header] (src/App.tsx lines 6-41) receives [onLogout], [theme] and
    [setTheme] from [App].  Its toggle button (line 21) flips the theme
    between ['dark'] and ['light-green']; the logout callback [App] passes
    it (line 141) clears the whole [sessionStorage] and sets
    [isAuthenticated] to false.  Neither touches any other state. *)

From stdpp Require Import base list gmap strings.
From Stdlib Require Import NArith.
From S2P Require Import Prelude JsString Types Storage State.

(** Line 21: [theme === 'dark' ? 'light-green' : 'dark']. *)
Definition next_theme (t : AppTheme) : AppTheme :=
  match t with Dark => LightGreen | LightGreen => Dark end.

Definition toggle_theme (w : World) : World :=
  with_app (fun s => setTheme (next_theme (theme s)) s) w.

(** Line 141: [sessionStorage.clear(); setIsAuthenticated(false)]. *)
Definition logout (w : World) : World :=
  mkWorld (setIsAuthenticated false (app w)) (clear (store w)) (inflight w) (mounted w).

Lemma next_theme_involutive t : next_theme (next_theme t) = t.
Proof. by destruct t. Qed.

Lemma logic_fields_setTheme t s : logic_fields (setTheme t s) = logic_fields s.
Proof. reflexivity. Qed.

#[export] Hint Rewrite next_theme_involutive logic_fields_setTheme : waed_rw.
