(* ===== verification/App.v ===== *)
(** * The component as a state machine (src/App.tsx lines 43-218)

    Every way the page changes state is an [Event]: the mount effect
    (lines 55-58), the [onChange] handlers of the four inputs (lines 115,
    122, 160, 172), the two form submissions (lines 110 and 154), the
    header's toggle and logout buttons (lines 21 and 141), the print link
    (line 193) and the settlement of a call to the analysis service (the
    continuation of line 85).  [dispatch] runs the handler; [enabled] says
    whether the rendered view offers the event (an input exists only on
    its screen, a disabled button cannot be clicked, a settlement needs a
    call in flight).  [reachable] is the set of worlds a page load and
    enabled events lead to; [run] executes a list of events;
    [page_reload] is a browser reload of the page. *)

From stdpp Require Import base list gmap strings.
From Stdlib Require Import NArith.
From S2P Require Import Prelude JsString Types Storage State Login Analysis Header Render.

Inductive Event :=
  | Mount
  | TypeUsername (v : jstr)
  | TypePassword (v : jstr)
  | SubmitLogin
  | SelectLawSystem (v : jstr)
  | TypeDetails (v : jstr)
  | SubmitAnalysis
  | ToggleTheme
  | Logout
  | Print
  | Settle (i : nat) (o : Outcome).

(** Lines 55-58: [if (sessionStorage.getItem('waed_auth') === 'true')
    setIsAuthenticated(true)], run once after the first render. *)
Definition mount_effect (w : World) : World :=
  mkWorld (if session_flag (store w) then setIsAuthenticated true (app w) else app w)
    (store w) (inflight w) true.

Section Machine.
Context `{CaseMapping} `{LawSystemEnum}.

Definition dispatch (w : World) (e : Event) : World :=
  match e with
  | Mount => mount_effect w
  | TypeUsername v => with_app (setUsername v) w
  | TypePassword v => with_app (setPassword v) w
  | SubmitLogin => handleLogin w
  | SelectLawSystem v => with_app (setLawSystem v) w
  | TypeDetails v => with_app (setDetails v) w
  | SubmitAnalysis => handleSubmit w
  | ToggleTheme => toggle_theme w
  | Logout => logout w
  | Print => w
  | Settle i o => handleSubmit_settle i o w
  end.

Definition enabled (w : World) (e : Event) : bool :=
  match e with
  | Mount => negb (mounted w)
  | TypeUsername _ | TypePassword _ | SubmitLogin => is_login_screen (render (app w))
  | SelectLawSystem v =>
      negb (is_login_screen (render (app w))) && bool_decide (v ∈ law_select_options)
  | TypeDetails _ | ToggleTheme | Logout =>
      negb (is_login_screen (render (app w)))
  | SubmitAnalysis =>
      match view_screen (render (app w)) with
      | MainScreen _ _ disabled _ _ => negb disabled
      | LoginScreen _ _ _ => false
      end
  | Print =>
      match view_screen (render (app w)) with
      | MainScreen _ _ _ _ (Some _) => true
      | _ => false
      end
  | Settle i _ => bool_decide (i < length (inflight w))
  end.

Inductive reachable : World -> Prop :=
  | reach_init st : reachable (initial_world st)
  | reach_step w e : reachable w -> enabled w e = true -> reachable (dispatch w e).

Fixpoint run (w : World) (es : list Event) : option World :=
  match es with
  | [] => Some w
  | e :: es' => if enabled w e then run (dispatch w e) es' else None
  end.
End Machine.

(** A reload of the page: React drops the component's state and the
    continuations of the calls in flight (their settlements reach no
    component), while the tab's [sessionStorage] survives.  The reloaded
    page is a fresh page load over the same storage. *)
Definition page_reload (w : World) : World := initial_world (store w).

(** The invariants. *)
Definition loading_inv (w : World) : Prop :=
  length (inflight w) <= 1 /\ (isLoading (app w) = true <-> inflight w <> []).

Definition session_inv (w : World) : Prop :=
  (isAuthenticated (app w) = true -> session_flag (store w) = true) /\
  (mounted w = true -> session_flag (store w) = true -> isAuthenticated (app w) = true).

(** A call is made only with a law system and with details that are not
    blank. *)
Definition request_ok (r : Request) : Prop :=
  req_lawSystem r <> [] /\ js_trim (req_details r) <> [].

Definition requests_inv (w : World) : Prop := Forall request_ok (inflight w).

(** The selected law system is one of the select's options, and every
    call in flight was made with a value of the enum. *)
Definition law_inv `{LawSystemEnum} (w : World) : Prop :=
  lawSystem (app w) ∈ law_select_options /\
  Forall (fun r => req_lawSystem r ∈ law_system_values) (inflight w).

(** Events that neither start nor settle an analysis. *)
Definition analysis_event (e : Event) : bool :=
  match e with SubmitAnalysis | Settle _ _ => true | _ => false end.

(** Events that touch the session. *)
Definition session_event (e : Event) : bool :=
  match e with Mount | SubmitLogin | Logout => true | _ => false end.

(** ** Frame lemmas: what each kind of event leaves alone *)

Section Frame.
Context `{CaseMapping} `{LawSystemEnum}.

Lemma dispatch_quiet_loading w e :
  analysis_event e = false ->
  isLoading (app (dispatch w e)) = isLoading (app w) /\ inflight (dispatch w e) = inflight w.
Proof.
  destruct e; simpl; try done; intros _;
    unfold mount_effect, handleLogin; by repeat case_match.
Qed.

Lemma dispatch_quiet_session w e :
  session_event e = false ->
  isAuthenticated (app (dispatch w e)) = isAuthenticated (app w) /\
  store (dispatch w e) = store w /\ mounted (dispatch w e) = mounted w.
Proof.
  destruct e; simpl; try done; intros _;
    unfold handleSubmit, handleSubmit_settle; by repeat case_match.
Qed.

Lemma dispatch_keeps_lawSystem w e :
  (forall v, e <> SelectLawSystem v) -> lawSystem (app (dispatch w e)) = lawSystem (app w).
Proof.
  destruct e; simpl; intros Hv; try done; try (exfalso; by eapply Hv);
    unfold mount_effect, handleLogin, handleSubmit, handleSubmit_settle; by repeat case_match.
Qed.

Lemma enabled_submit w :
  enabled w SubmitAnalysis = true ->
  isAuthenticated (app w) = true /\ submit_disabled_of (app w) = false.
Proof.
  simpl. unfold render. destruct (isAuthenticated (app w)); simpl; [|done].
  intros Hd. split; [done|]. by apply negb_true_iff.
Qed.

Lemma submit_enabled_not_loading w :
  enabled w SubmitAnalysis = true -> isLoading (app w) = false.
Proof.
  intros [_ Hd]%enabled_submit. unfold submit_disabled_of in Hd.
  by apply orb_false_iff in Hd as [[? _]%orb_false_iff _].
Qed.

Lemma enabled_settle w i o :
  enabled w (Settle i o) = true -> exists r, inflight w !! i = Some r.
Proof. simpl. intros Hi%bool_decide_eq_true. by apply lookup_lt_is_Some. Qed.
End Frame.

#[export] Hint Resolve submit_enabled_not_loading : waed.

(** ** Preservation of the invariants *)

Section Invariants.
Context `{CaseMapping} `{LawSystemEnum}.

Lemma loading_inv_init st : loading_inv (initial_world st).
Proof. split; simpl; [lia|]. split; [done|]. by intros []. Qed.

Lemma loading_inv_step w e :
  loading_inv w -> enabled w e = true -> loading_inv (dispatch w e).
Proof.
  unfold loading_inv. intros [Hlen Hiff] He. destruct (analysis_event e) eqn:Ha.
  2:{ destruct (dispatch_quiet_loading w e Ha) as [-> ->]. by split. }
  destruct e; try discriminate; simpl.
  - assert (Hnil : inflight w = []).
    { destruct (inflight w); [done|]. exfalso.
      rewrite (submit_enabled_not_loading w He) in Hiff.
      assert (Hc : false = true) by (apply Hiff; discriminate). discriminate. }
    unfold handleSubmit. destruct (submit_blocked _); [by split|].
    rewrite Hnil. split; simpl; [lia|]. split; [discriminate|done].
  - destruct (enabled_settle w i o He) as [r Hr].
    rewrite (handleSubmit_settle_some _ _ _ _ Hr). simpl.
    destruct (inflight w) as [|r1 [|r2 l]]; simpl in *; [done| |lia].
    destruct i; simpl in *; [|done]. split; [lia|]. split; [discriminate|by intros []].
Qed.

Lemma session_inv_init st : session_inv (initial_world st).
Proof. split; simpl; done. Qed.

Lemma session_inv_step w e :
  session_inv w -> enabled w e = true -> session_inv (dispatch w e).
Proof.
  unfold session_inv. intros [Hauth Hmount] _. destruct (session_event e) eqn:Hs.
  2:{ destruct (dispatch_quiet_session w e Hs) as (-> & -> & ->). by split. }
  destruct e; try discriminate; simpl.
  - unfold mount_effect. destruct (session_flag (store w)) eqn:Hf;
      split; simpl; intros; auto; congruence.
  - unfold handleLogin. destruct (credentials_ok _ _); split; simpl;
      rewrite ?session_flag_setItem; auto.
  - split; simpl; [done|]. by rewrite session_flag_clear.
Qed.

Lemma reachable_invariants w : reachable w -> loading_inv w /\ session_inv w.
Proof.
  induction 1 as [st|w e _ [IH1 IH2] He].
  - split; [apply loading_inv_init|apply session_inv_init].
  - split; [by apply loading_inv_step|by apply session_inv_step].
Qed.

Lemma requests_inv_step w e : requests_inv w -> requests_inv (dispatch w e).
Proof.
  unfold requests_inv. intros Hr. destruct (analysis_event e) eqn:Ha.
  2:{ by destruct (dispatch_quiet_loading w e Ha) as [_ ->]. }
  destruct e; try discriminate; simpl.
  - destruct (submit_blocked (app w)) eqn:B; [by rewrite handleSubmit_blocked|].
    rewrite handleSubmit_go by exact B. simpl. apply Forall_app. split; [done|].
    apply not_true_iff_false in B. rewrite submit_blocked_iff in B.
    constructor; [|constructor]. split; simpl; intros ?; apply B; auto.
  - unfold handleSubmit_settle. case_match; [|done]. simpl. by apply Forall_delete.
Qed.

Lemma run_reachable w es w' : reachable w -> run w es = Some w' -> reachable w'.
Proof.
  revert w. induction es as [|e es IH]; simpl; intros w Hw.
  - by intros [= <-].
  - destruct (enabled w e) eqn:He; [|done]. apply IH. by constructor.
Qed.

Lemma law_inv_step w e : law_inv w -> enabled w e = true -> law_inv (dispatch w e).
Proof.
  intros [Hl Hr] He. destruct (analysis_event e) eqn:Ha.
  - split; [rewrite dispatch_keeps_lawSystem; [done|by destruct e]|].
    destruct e; try discriminate; simpl.
    + destruct (submit_blocked (app w)) eqn:B; [by rewrite handleSubmit_blocked|].
      rewrite handleSubmit_go by exact B. simpl. apply Forall_app. split; [done|].
      apply not_true_iff_false in B. rewrite submit_blocked_iff in B.
      repeat constructor. simpl. apply elem_of_cons in Hl as [Hl|Hl]; [|done].
      exfalso. apply B. by left.
    + unfold handleSubmit_settle. case_match; [|done]. simpl. by apply Forall_delete.
  - destruct (dispatch_quiet_loading w e Ha) as [_ Hf]. split; [|by rewrite Hf].
    destruct e; try (rewrite dispatch_keeps_lawSystem; [done|done]).
    simpl in He. by apply andb_prop in He as [_ He%bool_decide_eq_true].
Qed.

Lemma reachable_auth_flag w :
  reachable w -> mounted w = true -> isAuthenticated (app w) = session_flag (store w).
Proof.
  intros Hw Hm. destruct (reachable_invariants w Hw) as [_ [Ha Hf]].
  destruct (isAuthenticated (app w)) eqn:E, (session_flag (store w)) eqn:F; auto.
  symmetry. auto.
Qed.

Lemma mount_initial_auth st :
  isAuthenticated (app (mount_effect (initial_world st))) = session_flag st.
Proof. unfold mount_effect. simpl. by destruct (session_flag st). Qed.
End Invariants.

(** ** Theorems about the running component *)

Section Theorems.
Context `{CaseMapping} `{LawSystemEnum}.

(** C9. In every reachable state at most one call to the analysis
    service is in flight, and the loading flag is raised exactly while
    one is: the disabled submit button is what prevents a second call. *)
Theorem reachable_one_call_in_flight (w : World) :
  reachable w ->
  length (inflight w) <= 1 /\ (isLoading (app w) = true <-> inflight w <> []).
Proof. intros Hw. apply (reachable_invariants w Hw). Qed.

(** C10. Once the mount effect has run, the page shows the login gate
    exactly when the session flag [waed_auth = 'true'] is absent from
    [sessionStorage]. *)
Theorem reachable_gate_iff_no_flag (w : World) :
  reachable w -> mounted w = true ->
  is_login_screen (render (app w)) = negb (session_flag (store w)).
Proof.
  intros Hw Hm. destruct (reachable_invariants w Hw) as [_ [Ha Hf]].
  rewrite is_login_screen_render. f_equal.
  destruct (isAuthenticated (app w)) eqn:E, (session_flag (store w)) eqn:F; auto.
  symmetry. auto.
Qed.

(** C11. Logout returns to the login gate and empties the whole
    [sessionStorage] (every key, not only [waed_auth]). *)
Theorem logout_to_gate (w : World) :
  is_login_screen (render (app (dispatch w Logout))) = true /\
  session_flag (store (dispatch w Logout)) = false /\
  forall k, getItem k (store (dispatch w Logout)) = None.
Proof.
  split; [done|]. split; [apply session_flag_clear|]. intros k. apply getItem_clear.
Qed.

(** C12. Logout resets nothing but the authentication flag: the login
    screen it shows has the username and password still filled in, and
    submitting it again brings back the same main screen, the previous
    result panel included. *)
Theorem logout_keeps_session_data (w : World) :
  isAuthenticated (app w) = true ->
  credentials_ok (normalize_username (username (app w)))
    (normalize_password (password (app w))) = true ->
  (exists err, view_screen (render (app (dispatch w Logout)))
               = LoginScreen (username (app w)) (password (app w)) err) /\
  view_screen (render (app (dispatch (dispatch w Logout) SubmitLogin)))
    = view_screen (render (app w)).
Proof.
  intros Ha Hok. split.
  - unfold render. simpl. eauto.
  - simpl. rewrite handleLogin_ok by exact Hok.
    unfold render. simpl. by rewrite Ha.
Qed.

(** C13. A call in flight is not cancelled by logout: it can still
    settle afterwards, and its result (or the fallback) is stored while
    the login gate is shown, ready to appear after the next login. *)
Theorem call_survives_logout (w : World) i req o :
  inflight w !! i = Some req ->
  enabled (dispatch w Logout) (Settle i o) = true /\
  result (app (dispatch (dispatch w Logout) (Settle i o))) = Some (settle_result o) /\
  is_login_screen (render (app (dispatch (dispatch w Logout) (Settle i o)))) = true.
Proof.
  intros Hi. split; [|split].
  - simpl. apply bool_decide_eq_true. by apply lookup_lt_Some in Hi.
  - simpl. unfold handleSubmit_settle. simpl. by rewrite Hi.
  - simpl. unfold handleSubmit_settle. simpl. by rewrite Hi.
Qed.
End Theorems.

Section MoreTheorems.
Context `{CaseMapping} `{LawSystemEnum}.

Lemma js_truthy_nonempty (s : jstr) : s <> [] -> js_truthy s = true.
Proof. by destruct s. Qed.

(** C14. The submit button is enabled exactly on the main screen, when no
    call is in flight and both the law system and the details are
    non-empty (the details as typed, not trimmed). *)
Theorem submit_enabled_iff (w : World) :
  enabled w SubmitAnalysis = true <->
  isAuthenticated (app w) = true /\ isLoading (app w) = false /\
  lawSystem (app w) <> [] /\ details (app w) <> [].
Proof.
  simpl. unfold render, submit_disabled_of.
  destruct (isAuthenticated (app w)), (isLoading (app w)),
    (lawSystem (app w)), (details (app w)); simpl; intuition congruence.
Qed.

(** C15. Case details made only of white space enable the submit button,
    yet clicking it does nothing: the guard of [handleSubmit] trims the
    details, the button's [disabled] test does not. *)
Theorem whitespace_details_enabled_noop (w : World) :
  isAuthenticated (app w) = true -> isLoading (app w) = false ->
  lawSystem (app w) <> [] -> details (app w) <> [] -> all_space (details (app w)) ->
  enabled w SubmitAnalysis = true /\ dispatch w SubmitAnalysis = w.
Proof.
  intros Ha Hl Hs Hd Hsp. split.
  - simpl. unfold render, submit_disabled_of. rewrite Ha, Hl. simpl.
    by rewrite !js_truthy_nonempty.
  - apply handleSubmit_blocked, submit_blocked_iff. right. by apply js_trim_all_space.
Qed.

(** C16. The theme toggle changes presentation only: every other field,
    the storage, the calls in flight and the displayed screen are
    unchanged, and toggling twice restores the state. *)
Theorem toggle_theme_presentation_only (w : World) :
  logic_fields (app (dispatch w ToggleTheme)) = logic_fields (app w) /\
  store (dispatch w ToggleTheme) = store w /\
  inflight (dispatch w ToggleTheme) = inflight w /\
  view_screen (render (app (dispatch w ToggleTheme))) = view_screen (render (app w)) /\
  dispatch (dispatch w ToggleTheme) ToggleTheme = w.
Proof.
  split; [done|]. split; [done|]. split; [done|]. split.
  - apply render_setTheme_screen.
  - destruct w as [[[] ? ? ? ? ? ? ? ?] ? ? ?]; reflexivity.
Qed.

(** C17. While the loading flag is up, the single call in flight can
    settle, whatever its outcome, and that settlement clears the flag:
    the submit button is then enabled again exactly when both fields
    are non-empty. *)
Theorem loading_clears_on_settle (w : World) :
  reachable w -> isLoading (app w) = true ->
  exists req, inflight w = [req] /\
    forall o, enabled w (Settle 0 o) = true /\
      isLoading (app (dispatch w (Settle 0 o))) = false /\
      inflight (dispatch w (Settle 0 o)) = [] /\
      submit_disabled_of (app (dispatch w (Settle 0 o)))
        = negb (js_truthy (lawSystem (app w))) || negb (js_truthy (details (app w))).
Proof.
  intros Hw Hl. destruct (reachable_invariants w Hw) as [[Hlen Hiff] _].
  apply Hiff in Hl.
  destruct (inflight w) as [|req [|r2 l]] eqn:Hf; simpl in *; [done| |lia].
  exists req. split; [done|]. intros o.
  assert (Hi : inflight w !! 0 = Some req) by (by rewrite Hf).
  rewrite (handleSubmit_settle_some _ _ _ _ Hi), Hf.
  split; [apply bool_decide_eq_true; simpl; lia|]. done.
Qed.
(** C24. Well-formedness of the calls: in every reachable world, each
    call to the analysis service in flight was made with a selected law
    system and with case details that are not blank, whatever the order in
    which submissions, edits, logouts and settlements happened. *)
Theorem reachable_requests_well_formed (w : World) :
  reachable w -> Forall request_ok (inflight w).
Proof.
  induction 1 as [st|w e _ IH _]; [constructor|]. by apply requests_inv_step.
Qed.

(** C25. Round trip of the session through [sessionStorage]: reloading
    the page of any mounted reachable world and running the mount effect
    gives back the authentication it had, so a login survives a reload
    and a logout does too; the fields, the result and the calls in flight
    do not survive, and the theme is back to dark. *)
Theorem session_survives_reload (w : World) :
  reachable w -> mounted w = true ->
  let w' := dispatch (page_reload w) Mount in
  reachable w' /\ isAuthenticated (app w') = isAuthenticated (app w) /\
  store w' = store w /\ inflight w' = [] /\
  result (app w') = None /\ details (app w') = [] /\ lawSystem (app w') = [] /\
  theme (app w') = Dark.
Proof.
  intros Hw Hm w'. split; [apply (reach_step _ Mount); [constructor|reflexivity]|].
  split; [|unfold w', page_reload, dispatch, mount_effect; simpl;
          destruct (session_flag (store w)); split_and!; reflexivity].
  rewrite (reachable_auth_flag w Hw Hm). apply mount_initial_auth.
Qed.

(** C26. Blank credentials never log in: when the typed username or the
    typed password is made only of white space, the submission of the
    login form is rejected with the error text and leaves the session
    storage as it was. *)
Theorem blank_credentials_rejected (w : World) :
  all_space (username (app w)) \/ all_space (password (app w)) ->
  handleLogin w = with_app (setLoginError login_error_msg) w.
Proof.
  intros Hb. apply handleLogin_not_ok, not_true_iff_false. rewrite credentials_ok_iff.
  destruct credential_lits_nonempty as (N1 & N2 & N3).
  destruct Hb as [Hb|Hb];
    [rewrite (normalize_username_blank _ Hb)|rewrite (normalize_password_blank _ Hb)];
    intros [[E1 E2] | [E1 E2]]; congruence.
Qed.

(** C27. The form stays editable while a call is in flight, and the
    result it returns is stored whatever the fields hold when it settles:
    editing the details during the call changes neither the call nor the
    result, so the main screen can show a result computed from details
    other than those in the text area. *)
Theorem edit_during_call (w : World) :
  reachable w -> isAuthenticated (app w) = true -> isLoading (app w) = true ->
  exists req, inflight w = [req] /\
    forall v o,
      let w1 := dispatch w (TypeDetails v) in
      let w2 := dispatch w1 (Settle 0 o) in
      enabled w (TypeDetails v) = true /\ inflight w1 = [req] /\
      enabled w1 (Settle 0 o) = true /\
      details (app w2) = v /\ result (app w2) = Some (settle_result o) /\
      isLoading (app w2) = false.
Proof.
  intros Hw Ha Hl. destruct (reachable_invariants w Hw) as [[Hlen Hiff] _].
  apply Hiff in Hl.
  destruct (inflight w) as [|req [|r2 l]] eqn:Hf; simpl in *; [done| |lia].
  exists req. split; [done|]. intros v o.
  assert (Hi : inflight (dispatch w (TypeDetails v)) !! 0 = Some req) by (simpl; by rewrite Hf).
  split; [by rewrite is_login_screen_render, Ha|].
  split; [simpl; by rewrite Hf|].
  split; [apply bool_decide_eq_true; simpl; rewrite Hf; simpl; lia|].
  rewrite (handleSubmit_settle_some _ _ _ _ Hi). done.
Qed.

(** C29. The select offers only the empty placeholder and the values of
    the [LawSystem] enum: in every reachable world the selected law system
    is one of these options, and every call to the analysis service in
    flight was made with a value of the enum (never with the placeholder),
    whatever the enum's values are. *)
Theorem reachable_law_system_in_enum (w : World) :
  reachable w ->
  lawSystem (app w) ∈ law_select_options /\
  Forall (fun r => req_lawSystem r ∈ law_system_values) (inflight w).
Proof.
  induction 1 as [st|w e _ IH He]; [split; [apply list_elem_of_here|constructor]|].
  by apply law_inv_step.
Qed.

(** C30. The print link exists exactly on the main screen while a result
    is stored (it sits in the result panel, line 193), and following it
    changes nothing in the component: the dialog is the host's. *)
Theorem print_offered_iff (w : World) :
  (enabled w Print = true <-> isAuthenticated (app w) = true /\ is_Some (result (app w))) /\
  dispatch w Print = w.
Proof.
  split; [|done]. simpl. unfold render.
  destruct (isAuthenticated (app w)), (result (app w)); simpl;
    (split; [intros ?; split; [done|first [done|by eexists]]|intros [? [? ?]]; done]).
Qed.

(** C31. The login error's lifetime: typing in either field keeps the
    error text on screen, and a successful login clears it, so that the
    gate shown after a later logout has no error line, the typed
    credentials still filled in. *)
Theorem login_error_cleared (w : World) v :
  credentials_ok (normalize_username (username (app w)))
    (normalize_password (password (app w))) = true ->
  loginError (app (dispatch w (TypeUsername v))) = loginError (app w) /\
  loginError (app (dispatch w (TypePassword v))) = loginError (app w) /\
  loginError (app (handleLogin w)) = [] /\
  view_screen (render (app (logout (handleLogin w))))
    = LoginScreen (username (app w)) (password (app w)) None.
Proof.
  intros Hok. rewrite handleLogin_ok by exact Hok. by split_and!.
Qed.

(** C18. [handleSubmit] has no busy check of its own: whenever the guard
    lets a submission through, firing the handler a second time, as the
    disabled button would prevent, makes a second identical call, and
    the first settlement lowers the loading flag while that second call
    is still in flight.  Only the rendered view forbids the second click. *)
Theorem raw_double_submit_loses_loading (w : World) o :
  submit_blocked (app w) = false ->
  let r := mkRequest (lawSystem (app w)) (details (app w)) in
  let w2 := handleSubmit (handleSubmit w) in
  enabled (handleSubmit w) SubmitAnalysis = false /\
  inflight w2 = inflight w ++ [r; r] /\
  isLoading (app (handleSubmit_settle 0 o w2)) = false /\
  length (inflight (handleSubmit_settle 0 o w2)) = S (length (inflight w)).
Proof.
  intros Hb r w2.
  assert (Hb2 : submit_blocked (app (handleSubmit w)) = false)
    by (rewrite handleSubmit_go by exact Hb; exact Hb).
  assert (Hw2 : w2 = mkWorld (setIsLoading true (setResult None (app w))) (store w)
                      (inflight w ++ [r; r]) (mounted w)).
  { unfold w2. rewrite (handleSubmit_go (handleSubmit w) Hb2), handleSubmit_go by exact Hb.
    simpl. by rewrite <-app_assoc. }
  split; [|split; [by rewrite Hw2|]].
  - apply not_true_iff_false. intros He%submit_enabled_not_loading.
    by rewrite handleSubmit_go in He.
  - assert (Hi : inflight w2 !! 0 = Some (default r (head (inflight w ++ [r; r])))).
    { rewrite Hw2. simpl. by destruct (inflight w). }
    rewrite (handleSubmit_settle_some _ _ _ _ Hi), Hw2. simpl. split; [done|].
    rewrite length_delete, length_app by (by destruct (inflight w)). simpl. lia.
Qed.
End MoreTheorems.

(** ** Concrete runs *)

#[local] Existing Instance sample_law_systems.

(** Witnesses. *)

Abbreviation sample_events :=
  [Mount; TypeUsername (lit "admin"); TypePassword (lit "admin 6787"); SubmitLogin;
   SelectLawSystem (lit "law"); TypeDetails (lit "facts"); SubmitAnalysis].

Abbreviation sample_world :=
  (mkWorld (mkAppState Dark true (lit "admin") (lit "admin 6787") [] true (lit "law")
              (lit "facts") None)
     (setItem auth_key auth_true ∅) [mkRequest (lit "law") (lit "facts")] true).

Lemma sample_world_reachable : reachable sample_world.
Proof. apply (run_reachable (initial_world ∅) sample_events); [constructor|vm_compute; reflexivity]. Qed.

Lemma reachable_one_call_in_flight_witness :
  reachable sample_world /\
  (length (inflight sample_world) <= 1 /\
   (isLoading (app sample_world) = true <-> inflight sample_world <> [])).
Proof.
  pose proof sample_world_reachable as Hr.
  split; [exact Hr|]. apply reachable_one_call_in_flight, Hr.
Defined.

Lemma reachable_gate_iff_no_flag_witness :
  (reachable sample_world /\ mounted sample_world = true) /\
  is_login_screen (render (app sample_world)) = negb (session_flag (store sample_world)).
Proof.
  pose proof sample_world_reachable as Hr.
  split; [split; [exact Hr|reflexivity]|]. apply reachable_gate_iff_no_flag; [exact Hr|reflexivity].
Defined.

Lemma logout_keeps_session_data_witness :
  (isAuthenticated (app sample_world) = true /\
   credentials_ok (normalize_username (username (app sample_world)))
     (normalize_password (password (app sample_world))) = true) /\
  (exists err, view_screen (render (app (dispatch sample_world Logout)))
               = LoginScreen (username (app sample_world)) (password (app sample_world)) err) /\
  view_screen (render (app (dispatch (dispatch sample_world Logout) SubmitLogin)))
    = view_screen (render (app sample_world)).
Proof.
  split; [split; vm_compute; reflexivity|].
  apply logout_keeps_session_data; vm_compute; reflexivity.
Defined.

Lemma call_survives_logout_witness :
  inflight sample_world !! 0 = Some (mkRequest (lit "law") (lit "facts")) /\
  enabled (dispatch sample_world Logout) (Settle 0 Rejected) = true /\
  result (app (dispatch (dispatch sample_world Logout) (Settle 0 Rejected)))
    = Some (settle_result Rejected) /\
  is_login_screen (render (app (dispatch (dispatch sample_world Logout) (Settle 0 Rejected)))) = true.
Proof.
  split; [reflexivity|]. apply (call_survives_logout sample_world 0 (mkRequest (lit "law") (lit "facts"))).
  reflexivity.
Defined.

Lemma whitespace_details_enabled_noop_witness :
  let w := mkWorld (setDetails (lit "   ") (setLawSystem (lit "law")
             (setIsAuthenticated true initial_app))) ∅ [] true in
  (isAuthenticated (app w) = true /\ isLoading (app w) = false /\
   lawSystem (app w) <> [] /\ details (app w) <> [] /\ all_space (details (app w))) /\
  enabled w SubmitAnalysis = true /\ dispatch w SubmitAnalysis = w.
Proof.
  intros w. assert (Hsp : all_space (details (app w))) by (vm_compute; repeat constructor).
  split; [repeat split; try discriminate; exact Hsp|].
  apply whitespace_details_enabled_noop; try reflexivity; try discriminate; exact Hsp.
Defined.

Lemma reachable_requests_well_formed_witness :
  reachable sample_world /\ Forall request_ok (inflight sample_world).
Proof.
  split; [exact sample_world_reachable|].
  apply reachable_requests_well_formed, sample_world_reachable.
Defined.

Lemma loading_clears_on_settle_witness :
  (reachable sample_world /\ isLoading (app sample_world) = true) /\
  exists req, inflight sample_world = [req] /\
    forall o, enabled sample_world (Settle 0 o) = true /\
      isLoading (app (dispatch sample_world (Settle 0 o))) = false /\
      inflight (dispatch sample_world (Settle 0 o)) = [] /\
      submit_disabled_of (app (dispatch sample_world (Settle 0 o)))
        = negb (js_truthy (lawSystem (app sample_world)))
          || negb (js_truthy (details (app sample_world))).
Proof.
  pose proof sample_world_reachable as Hr.
  split; [split; [exact Hr|reflexivity]|]. apply loading_clears_on_settle; [exact Hr|reflexivity].
Defined.

Lemma session_survives_reload_witness :
  (reachable sample_world /\ mounted sample_world = true) /\
  let w' := dispatch (page_reload sample_world) Mount in
  reachable w' /\ isAuthenticated (app w') = isAuthenticated (app sample_world) /\
  store w' = store sample_world /\ inflight w' = [] /\
  result (app w') = None /\ details (app w') = [] /\ lawSystem (app w') = [] /\
  theme (app w') = Dark.
Proof.
  pose proof sample_world_reachable as Hr.
  split; [split; [exact Hr|reflexivity]|]. apply session_survives_reload; [exact Hr|reflexivity].
Defined.

Lemma blank_credentials_rejected_witness :
  let w := mkWorld (setPassword (lit "admin6787") (setUsername (lit " ") initial_app)) ∅ [] true in
  (all_space (username (app w)) \/ all_space (password (app w))) /\
  handleLogin w = with_app (setLoginError login_error_msg) w.
Proof.
  intros w. assert (Hb : all_space (username (app w)) \/ all_space (password (app w)))
    by (left; vm_compute; repeat constructor).
  split; [exact Hb|]. apply blank_credentials_rejected, Hb.
Defined.

Lemma edit_during_call_witness :
  (reachable sample_world /\ isAuthenticated (app sample_world) = true /\
   isLoading (app sample_world) = true) /\
  exists req, inflight sample_world = [req] /\
    forall v o,
      let w1 := dispatch sample_world (TypeDetails v) in
      let w2 := dispatch w1 (Settle 0 o) in
      enabled sample_world (TypeDetails v) = true /\ inflight w1 = [req] /\
      enabled w1 (Settle 0 o) = true /\
      details (app w2) = v /\ result (app w2) = Some (settle_result o) /\
      isLoading (app w2) = false.
Proof.
  pose proof sample_world_reachable as Hr.
  split; [split_and!; [exact Hr|reflexivity|reflexivity]|].
  apply edit_during_call; [exact Hr|reflexivity|reflexivity].
Defined.

Lemma reachable_law_system_in_enum_witness :
  reachable sample_world /\
  lawSystem (app sample_world) ∈ law_select_options /\
  Forall (fun r => req_lawSystem r ∈ law_system_values) (inflight sample_world).
Proof.
  pose proof sample_world_reachable as Hr.
  split; [exact Hr|]. apply reachable_law_system_in_enum, Hr.
Defined.

Lemma login_error_cleared_witness :
  let w := mkWorld (setLoginError login_error_msg (setPassword (lit "admin6787")
             (setUsername (lit "admin") initial_app))) ∅ [] true in
  credentials_ok (normalize_username (username (app w)))
    (normalize_password (password (app w))) = true /\
  loginError (app (dispatch w (TypeUsername (lit "x")))) = loginError (app w) /\
  loginError (app (dispatch w (TypePassword (lit "x")))) = loginError (app w) /\
  loginError (app (handleLogin w)) = [] /\
  view_screen (render (app (logout (handleLogin w))))
    = LoginScreen (username (app w)) (password (app w)) None.
Proof.
  intros w. assert (Hok : credentials_ok (normalize_username (username (app w)))
                           (normalize_password (password (app w))) = true)
    by (vm_compute; reflexivity).
  split; [exact Hok|]. apply login_error_cleared, Hok.
Defined.

Lemma raw_double_submit_loses_loading_witness :
  let w := mkWorld (setDetails (lit "facts") (setLawSystem (lit "law")
             (setIsAuthenticated true initial_app))) ∅ [] true in
  submit_blocked (app w) = false /\
  let r := mkRequest (lawSystem (app w)) (details (app w)) in
  let w2 := handleSubmit (handleSubmit w) in
  enabled (handleSubmit w) SubmitAnalysis = false /\
  inflight w2 = inflight w ++ [r; r] /\
  isLoading (app (handleSubmit_settle 0 Rejected w2)) = false /\
  length (inflight (handleSubmit_settle 0 Rejected w2)) = S (length (inflight w)).
Proof.
  intros w. assert (Hb : submit_blocked (app w) = false) by (vm_compute; reflexivity).
  split; [exact Hb|]. apply raw_double_submit_loses_loading, Hb.
Defined.
