(* ===== verification/Theme.v ===== *)
(** * Theme independence

    The theme ([theme] hook, toggled from the header, line 21) only picks
    colour tokens.  [world_equiv] relates worlds that differ at most in
    their theme; it is an equivalence, every handler and the enabling of
    every event respect it ([Proper] instances), so a whole run of events
    from two such worlds takes the same course and shows the same screens. *)

From stdpp Require Import base list gmap strings.
From Stdlib Require Import NArith.
From S2P Require Import Prelude JsString Types Storage State Render Login Analysis Header App.

Definition world_equiv (w1 w2 : World) : Prop :=
  logic_fields (app w1) = logic_fields (app w2) /\ store w1 = store w2 /\
  inflight w1 = inflight w2 /\ mounted w1 = mounted w2.

Infix "≈ₜ" := world_equiv (at level 70) : waed_scope.
Local Open Scope waed_scope.

#[export] Instance world_equiv_equivalence : Equivalence world_equiv.
Proof.
  split.
  - intros w. by repeat split.
  - intros w1 w2 (? & ? & ? & ?). by repeat split.
  - intros w1 w2 w3 (? & ? & ? & ?) (? & ? & ? & ?). repeat split; congruence.
Qed.

(** Two worlds equal up to theme: the first is the second re-themed. *)
Lemma world_equiv_setTheme w1 w2 :
  w1 ≈ₜ w2 <-> w1 = with_app (setTheme (theme (app w1))) w2.
Proof.
  destruct w1 as [[] ? ? ?], w2 as [[] ? ? ?]. unfold world_equiv, logic_fields. simpl.
  split.
  - intros ([= -> -> -> -> -> -> -> ->] & -> & -> & ->). reflexivity.
  - intros [= -> -> -> -> -> -> -> -> -> -> ->]. by repeat split.
Qed.

Section Independence.
Context `{CaseMapping} `{LawSystemEnum}.

(** Re-theming commutes with every handler (the toggle flips the theme it
    is given). *)
Lemma dispatch_setTheme t w e :
  exists t', dispatch (with_app (setTheme t) w) e = with_app (setTheme t') (dispatch w e).
Proof.
  destruct e; unfold dispatch; cbv beta iota.
  - exists t. unfold mount_effect. destruct w as [[] st fl m]. simpl_state.
    by repeat case_match.
  - exists t. by destruct w as [[] ? ? ?].
  - exists t. by destruct w as [[] ? ? ?].
  - exists t. destruct (credentials_ok (normalize_username (username (app w)))
                        (normalize_password (password (app w)))) eqn:E.
    + rewrite !handleLogin_ok by exact E. destruct w as [[] ? ? ?]. simpl_state. reflexivity.
    + rewrite !handleLogin_not_ok by exact E. destruct w as [[] ? ? ?]. simpl_state. reflexivity.
  - exists t. by destruct w as [[] ? ? ?].
  - exists t. by destruct w as [[] ? ? ?].
  - exists t. destruct (submit_blocked (app w)) eqn:E.
    + by rewrite !handleSubmit_blocked by exact E.
    + rewrite !handleSubmit_go by exact E. destruct w as [[] ? ? ?]. simpl_state. reflexivity.
  - exists (next_theme t). by destruct w as [[] ? ? ?].
  - exists t. by destruct w as [[] ? ? ?].
  - exists t. by destruct w as [[] ? ? ?].
  - exists t. destruct (inflight w !! i) as [r|] eqn:E.
    + rewrite !(handleSubmit_settle_some _ _ _ r) by exact E.
      destruct w as [[] ? ? ?]. simpl_state. reflexivity.
    + destruct w as [? ? fl ?]. unfold handleSubmit_settle. simpl_state.
      simpl in E. by rewrite E.
Qed.

Lemma enabled_setTheme t w e : enabled (with_app (setTheme t) w) e = enabled w e.
Proof.
  destruct e; simpl; try done;
    unfold render; simpl; by destruct (isAuthenticated (app w)).
Qed.

#[export] Instance dispatch_proper : Proper (world_equiv ==> eq ==> world_equiv) dispatch.
Proof.
  intros w1 w2 Hw e ? <-. apply world_equiv_setTheme in Hw. rewrite Hw.
  destruct (dispatch_setTheme (theme (app w1)) w2 e) as [t' ->].
  apply world_equiv_setTheme. destruct (dispatch w2 e) as [[] ? ? ?]. reflexivity.
Qed.

#[export] Instance enabled_proper : Proper (world_equiv ==> eq ==> eq) enabled.
Proof.
  intros w1 w2 Hw e ? <-. apply world_equiv_setTheme in Hw. rewrite Hw.
  apply enabled_setTheme.
Qed.

#[export] Instance run_proper :
  Proper (world_equiv ==> eq ==> option_Forall2 world_equiv) run.
Proof.
  intros w1 w2 Hw es ? <-. revert w1 w2 Hw.
  induction es as [|e es IH]; intros w1 w2 Hw; simpl; [by constructor|].
  rewrite Hw. destruct (enabled w2 e); [|constructor]. apply IH. by rewrite Hw.
Qed.

Lemma render_screen_proper w1 w2 :
  w1 ≈ₜ w2 -> view_screen (render (app w1)) = view_screen (render (app w2)).
Proof. intros Hw%world_equiv_setTheme. rewrite Hw. apply render_setTheme_screen. Qed.
End Independence.

Section ThemeTheorems.
Context `{CaseMapping} `{LawSystemEnum}.

(** C20. The theme never influences the logic: from two worlds that differ
    only in their theme, every sequence of events is offered to both or to
    neither, ends in worlds that again differ only in their theme, and
    shows the same screen (fields, button state and result panel). *)
Theorem theme_never_affects_logic (w1 w2 : World) (es : list Event) :
  w1 ≈ₜ w2 ->
  option_Forall2 world_equiv (run w1 es) (run w2 es) /\
  (forall v1 v2, run w1 es = Some v1 -> run w2 es = Some v2 ->
   view_screen (render (app v1)) = view_screen (render (app v2))).
Proof.
  intros Hw. assert (Hr : option_Forall2 world_equiv (run w1 es) (run w2 es)).
  { by apply run_proper. }
  split; [exact Hr|]. intros v1 v2 E1 E2. rewrite E1, E2 in Hr.
  inversion Hr as [? ? Hv|]. by apply render_screen_proper.
Qed.
End ThemeTheorems.

#[local] Existing Instance sample_law_systems.

Lemma theme_never_affects_logic_witness :
  let w1 := initial_world ∅ in
  let w2 := dispatch (initial_world ∅) ToggleTheme in
  let es := [TypeUsername (lit "admin1"); TypePassword (lit "admin1"); SubmitLogin] in
  w1 ≈ₜ w2 /\
  option_Forall2 world_equiv (run w1 es) (run w2 es) /\
  (forall v1 v2, run w1 es = Some v1 -> run w2 es = Some v2 ->
   view_screen (render (app v1)) = view_screen (render (app v2))).
Proof.
  intros w1 w2 es. assert (Hw : w1 ≈ₜ w2) by (vm_compute; repeat split).
  split; [exact Hw|]. apply theme_never_affects_logic, Hw.
Defined.
