(* ===== verification/Spec.v ===== *)
(** * The specification's view-state machine and the refinement

    Section 9 of the spec describes the program as an explicit view state
    updated by discrete events: login, form edits, submission of an
    analysis, its completion, logout.  [AbsState] keeps what the spec
    names (authentication, the session flag, the form, the result, the
    request in flight) and [abs_step] its transitions, guarded as the spec
    says: a submission needs the gate passed, no request in flight and both
    fields non-empty.  [abstr] reads the abstract state off a world; the
    refinement theorem says that every event the page offers is an
    abstract step or leaves the abstract state unchanged, so the
    invariants of the abstract machine hold of every reachable world. *)

From stdpp Require Import base list gmap strings relations.
From Stdlib Require Import NArith.
From S2P Require Import Prelude JsString Types Storage State Render Login Analysis Header App.

Record AbsState := mkAbs {
  a_auth : bool;
  a_flag : bool;
  a_form : jstr * jstr;             (** (law system, case details) *)
  a_result : option AnalysisResult;
  a_loading : option Request
}.

Inductive abs_step : AbsState -> AbsState -> Prop :=
  | as_restore s :
      a_auth s = false -> a_flag s = true ->
      abs_step s (mkAbs true true (a_form s) (a_result s) (a_loading s))
  | as_login s :
      a_auth s = false ->
      abs_step s (mkAbs true true (a_form s) (a_result s) (a_loading s))
  | as_edit s f :
      a_auth s = true ->
      abs_step s (mkAbs true (a_flag s) f (a_result s) (a_loading s))
  | as_submit s :
      a_auth s = true -> a_loading s = None ->
      fst (a_form s) <> [] -> snd (a_form s) <> [] ->
      abs_step s (mkAbs true (a_flag s) (a_form s) None
                    (Some (mkRequest (fst (a_form s)) (snd (a_form s)))))
  | as_complete s req o :
      a_loading s = Some req ->
      abs_step s (mkAbs (a_auth s) (a_flag s) (a_form s) (Some (settle_result o)) None)
  | as_logout s :
      a_auth s = true ->
      abs_step s (mkAbs false false (a_form s) (a_result s) (a_loading s)).

Definition abs_init (flag : bool) : AbsState := mkAbs false flag ([], []) None None.

Definition abs_reachable (s : AbsState) : Prop :=
  exists flag, rtc abs_step (abs_init flag) s.

(** The abstract state of a world. *)
Definition abstr (w : World) : AbsState :=
  mkAbs (isAuthenticated (app w)) (session_flag (store w))
    (lawSystem (app w), details (app w)) (result (app w)) (head (inflight w)).

(** The spec's invariants of its own machine. *)
Definition abs_inv (s : AbsState) : Prop :=
  (a_loading s <> None -> a_result s = None) /\ (a_auth s = true -> a_flag s = true).

(** ** The abstract machine keeps its invariants *)

Lemma abs_step_eq s s1 s2 : abs_step s s1 -> s1 = s2 -> abs_step s s2.
Proof. by intros ? <-. Qed.

Lemma abs_inv_step s s' : abs_inv s -> abs_step s s' -> abs_inv s'.
Proof.
  intros [Hl Ha] Hs. destruct Hs; split; simpl; try done; auto.
Qed.

Lemma abs_inv_reachable s : abs_reachable s -> abs_inv s.
Proof.
  intros [flag Hr]. remember (abs_init flag) as s0 eqn:E.
  assert (H0 : abs_inv s0) by (subst; split; simpl; done).
  clear E. induction Hr as [s|s1 s2 s3 Hs _ IH]; [done|].
  apply IH. by eapply abs_inv_step.
Qed.

(** ** Each event is an abstract step or a stutter *)

Lemma abstr_initial st : abstr (initial_world st) = abs_init (session_flag st).
Proof. reflexivity. Qed.

Lemma js_trim_nil_nonempty (s : jstr) : js_trim s <> [] -> s <> [].
Proof. by intros H ->. Qed.

Section Refinement.
Context `{CaseMapping} `{LawSystemEnum}.

Lemma refine_mount w :
  abs_step (abstr w) (abstr (dispatch w Mount)) \/ abstr (dispatch w Mount) = abstr w.
Proof.
  simpl. unfold mount_effect, abstr. simpl.
  destruct (session_flag (store w)) eqn:F; [|by right].
  destruct (isAuthenticated (app w)) eqn:A.
  - by right.
  - left. eapply abs_step_eq; [apply as_restore|]; simpl; try done.
Qed.

Lemma refine_login w :
  enabled w SubmitLogin = true ->
  abs_step (abstr w) (abstr (dispatch w SubmitLogin)) \/
  abstr (dispatch w SubmitLogin) = abstr w.
Proof.
  simpl. rewrite is_login_screen_render. intros A%negb_true_iff.
  destruct (credentials_ok (normalize_username (username (app w)))
              (normalize_password (password (app w)))) eqn:E.
  - left. rewrite handleLogin_ok by exact E.
    eapply abs_step_eq; [apply as_login; exact A|].
    unfold abstr. simpl. by rewrite session_flag_setItem.
  - right. by rewrite handleLogin_not_ok by exact E.
Qed.

Lemma refine_submit w :
  reachable w -> enabled w SubmitAnalysis = true ->
  abs_step (abstr w) (abstr (dispatch w SubmitAnalysis)) \/
  abstr (dispatch w SubmitAnalysis) = abstr w.
Proof.
  intros Hw He. destruct (reachable_invariants w Hw) as [[_ Hiff] _].
  destruct (enabled_submit w He) as [A _].
  assert (Hnil : inflight w = []).
  { destruct (inflight w); [done|]. rewrite (submit_enabled_not_loading w He) in Hiff.
    assert (Hc : false = true) by (apply Hiff; discriminate). discriminate. }
  simpl. destruct (submit_blocked (app w)) eqn:B.
  - right. by rewrite handleSubmit_blocked.
  - left. rewrite handleSubmit_go by exact B.
    apply not_true_iff_false in B. rewrite submit_blocked_iff in B.
    eapply abs_step_eq; [apply as_submit; simpl; try done|].
    + by rewrite Hnil.
    + intros ?. apply B. by left.
    + intros Hd. apply B. right. by rewrite Hd.
    + unfold abstr. simpl. rewrite Hnil, A. reflexivity.
Qed.

Lemma refine_settle w i o :
  reachable w -> enabled w (Settle i o) = true ->
  abs_step (abstr w) (abstr (dispatch w (Settle i o))).
Proof.
  intros Hw He. destruct (reachable_invariants w Hw) as [[Hlen _] _].
  destruct (enabled_settle w i o He) as [r Hr]. simpl.
  rewrite (handleSubmit_settle_some _ _ _ _ Hr).
  destruct (inflight w) as [|r1 [|r2 l]] eqn:F; simpl in *; [done| |lia].
  destruct i; simpl in Hr; [|done]. injection Hr as <-.
  eapply abs_step_eq; [apply (as_complete _ r1 o)|]; unfold abstr; simpl; by rewrite ?F.
Qed.
End Refinement.

Section RefinementTheorems.
Context `{CaseMapping} `{LawSystemEnum}.

Lemma enabled_main_auth w e :
  enabled w e = true ->
  match e with SelectLawSystem _ | TypeDetails _ | Logout => True | _ => False end ->
  isAuthenticated (app w) = true.
Proof.
  intros He Hm. destruct e; try contradiction; simpl in He;
    rewrite is_login_screen_render in He; try (apply andb_prop in He as [He _]);
    by apply negb_true_iff, negb_false_iff in He.
Qed.

Lemma refine_step w e :
  reachable w -> enabled w e = true ->
  abs_step (abstr w) (abstr (dispatch w e)) \/ abstr (dispatch w e) = abstr w.
Proof.
  intros Hw He. destruct e.
  - apply refine_mount.
  - by right.
  - by right.
  - by apply refine_login.
  - left. pose proof (enabled_main_auth w (SelectLawSystem v) He I) as A.
    eapply abs_step_eq; [apply (as_edit (abstr w) (v, details (app w))); exact A|].
    unfold abstr. simpl. by rewrite A.
  - left. pose proof (enabled_main_auth w (TypeDetails v) He I) as A.
    eapply abs_step_eq; [apply (as_edit (abstr w) (lawSystem (app w), v)); exact A|].
    unfold abstr. simpl. by rewrite A.
  - by apply refine_submit.
  - by right.
  - left. eapply abs_step_eq; [apply as_logout; exact (enabled_main_auth w Logout He I)|].
    unfold abstr. simpl. by rewrite session_flag_clear.
  - by right.
  - left. by apply refine_settle.
Qed.

Lemma reachable_abstr w : reachable w -> abs_reachable (abstr w).
Proof.
  induction 1 as [st|w e Hw IH He].
  - exists (session_flag st). rewrite abstr_initial. constructor.
  - destruct IH as [flag IH]. exists flag. destruct (refine_step w e Hw He) as [Hs | ->]; [|done].
    eapply rtc_r; [exact IH|exact Hs].
Qed.

(** C21. Refinement of the spec's view-state machine (section 9): the
    abstract state of every reachable world is reachable in the spec
    machine, and every event the page offers moves the abstract state by
    one spec transition or leaves it unchanged. *)
Theorem component_refines_spec (w : World) :
  reachable w ->
  abs_reachable (abstr w) /\
  (forall e, enabled w e = true ->
   abs_step (abstr w) (abstr (dispatch w e)) \/ abstr (dispatch w e) = abstr w).
Proof.
  intros Hw. split; [by apply reachable_abstr|]. intros e He. by apply refine_step.
Qed.

(** C22. While a call to the analysis service is in flight no result is
    stored, so no result panel is shown: a new submission replaces the
    previous result rather than showing it beside the pending one. *)
Theorem in_flight_hides_result (w : World) :
  reachable w -> inflight w <> [] -> result (app w) = None.
Proof.
  intros Hw Hf. destruct (abs_inv_reachable _ (reachable_abstr w Hw)) as [Hl _].
  apply Hl. unfold abstr. simpl. by destruct (inflight w).
Qed.
End RefinementTheorems.

#[local] Existing Instance sample_law_systems.

Lemma component_refines_spec_witness :
  reachable sample_world /\
  (abs_reachable (abstr sample_world) /\
   (forall e, enabled sample_world e = true ->
    abs_step (abstr sample_world) (abstr (dispatch sample_world e)) \/
    abstr (dispatch sample_world e) = abstr sample_world)).
Proof.
  split; [exact sample_world_reachable|].
  apply component_refines_spec, sample_world_reachable.
Defined.

Lemma in_flight_hides_result_witness :
  (reachable sample_world /\ inflight sample_world <> []) /\ result (app sample_world) = None.
Proof.
  split; [split; [exact sample_world_reachable|discriminate]|].
  apply in_flight_hides_result; [exact sample_world_reachable|discriminate].
Defined.
